(** * Tea-and-Tales: the row-level security layer of the bookstore database

    The storefront keeps its data in a hosted PostgreSQL database.  What each
    caller may read or write is decided by the row-level security (RLS)
    policies that the SQL migrations under [supabase/migrations] create, by
    the helper [get_current_user_role] and by the trigger function
    [handle_new_user].  This file embeds those objects and states what they
    grant and what they refuse.

    Conventions.
    - A SQL boolean is [option bool]; [None] is NULL.  A policy lets a row
      through only when its expression is TRUE.
    - A UUID is kept as the text the database prints for it.
    - DECIMAL(10,2) and DECIMAL(2,1) columns are integers counted in the
      last kept digit; timestamps are integers.
    - A nullable column is an [option]. *)

From Stdlib Require Import List String Ascii Bool ZArith Lia.
Import ListNotations.
Local Open Scope string_scope.

Set Implicit Arguments.

(** ** Three-valued logic *)

Module Sql.

Definition tri := option bool.

Definition TRUE : tri := Some true.
Definition FALSE : tri := Some false.
Definition NULL : tri := None.

Definition not (a : tri) : tri :=
  match a with
  | Some b => Some (negb b)
  | None => None
  end.

Definition or (a b : tri) : tri :=
  match a, b with
  | Some true, _ => Some true
  | _, Some true => Some true
  | Some false, Some false => Some false
  | _, _ => None
  end.

Definition and (a b : tri) : tri :=
  match a, b with
  | Some false, _ => Some false
  | _, Some false => Some false
  | Some true, Some true => Some true
  | _, _ => None
  end.

(** [a = b] on text (and on UUIDs, kept as text): NULL as soon as one side
    is NULL. *)
Definition eq (a b : option string) : tri :=
  match a, b with
  | Some x, Some y => Some (String.eqb x y)
  | _, _ => None
  end.

(** A WHERE clause, a USING clause and a WITH CHECK clause keep a row only
    when the expression is TRUE: FALSE and NULL both drop it. *)
Definition holds (a : tri) : bool :=
  match a with
  | Some true => true
  | _ => false
  end.

(** COALESCE(a, d) with a non-null last argument. *)
Definition coalesce {A} (a : option A) (d : A) : A :=
  match a with
  | Some x => x
  | None => d
  end.

End Sql.

(** ** Schema *)

(** UUID and TIMESTAMP WITH TIME ZONE columns. *)
Abbreviation uuid := string (only parsing).
Abbreviation timestamptz := Z (only parsing).

(** CREATE TYPE public.user_role AS ENUM ('customer', 'admin') *)
Inductive user_role := customer | admin.

(** CREATE TYPE public.order_status AS ENUM (...) *)
Inductive order_status := pending | confirmed | shipped | delivered | cancelled.

(** The cast [role::text]. *)
Definition role_text (r : user_role) : string :=
  match r with
  | customer => "customer"
  | admin => "admin"
  end.

(** [auth.users], as far as the migrations read it: the key, the e-mail
    (nullable there) and the JSON metadata, of which only text-valued fields
    are read, through [->>]. *)
Module AuthUsers.
Record row := mk {
  id : uuid;
  email : option string;
  raw_user_meta_data : option (list (string * string))
}.
End AuthUsers.

Module Profiles.
Record row := mk {
  id : uuid;                    (* PRIMARY KEY, REFERENCES auth.users(id) *)
  email : string;               (* NOT NULL *)
  full_name : option string;
  phone : option string;
  address : option string;
  role : user_role;             (* NOT NULL DEFAULT 'customer' *)
  created_at : timestamptz;
  updated_at : timestamptz;
  is_blocked : option bool      (* BOOLEAN DEFAULT FALSE, nullable *)
}.
End Profiles.

Module Categories.
Record row := mk {
  id : uuid;
  name : string;
  description : option string;
  created_at : timestamptz
}.
End Categories.

Module Books.
Record row := mk {
  id : uuid;
  title : string;
  author : string;
  isbn : option string;
  description : option string;
  price : Z;
  original_price : option Z;
  category_id : option uuid;
  image_url : option string;
  stock_quantity : Z;
  rating : option Z;
  review_count : option Z;
  is_featured : option bool;
  created_at : timestamptz;
  updated_at : timestamptz
}.
End Books.

Module CartItems.
Record row := mk {
  id : uuid;
  user_id : uuid;               (* NOT NULL *)
  book_id : uuid;
  quantity : Z;
  created_at : timestamptz
}.
End CartItems.

Module Orders.
Record row := mk {
  id : uuid;                    (* PRIMARY KEY *)
  user_id : uuid;               (* NOT NULL *)
  total_amount : Z;
  status : order_status;
  shipping_address : string;
  created_at : timestamptz;
  updated_at : timestamptz
}.
End Orders.

Module OrderItems.
Record row := mk {
  id : uuid;
  order_id : uuid;              (* NOT NULL REFERENCES orders(id) *)
  book_id : uuid;
  quantity : Z;
  price : Z;
  created_at : timestamptz
}.
End OrderItems.

(** The tables that policies and functions read. *)
Record database := mkDb {
  profiles : list Profiles.row;
  orders : list Orders.row
}.

(** What a request carries: [auth.uid()], NULL for an anonymous caller. *)
Record session := mkSession {
  auth_uid : option uuid
}.

Definition anonymous : session := mkSession None.
Definition signed_in (u : uuid) : session := mkSession (Some u).

(** ** The policy engine *)

Inductive command := SELECT | INSERT | UPDATE | DELETE.

Definition command_eqb (a b : command) : bool :=
  match a, b with
  | SELECT, SELECT | INSERT, INSERT | UPDATE, UPDATE | DELETE, DELETE => true
  | _, _ => false
  end.

(** The FOR clause of CREATE POLICY. *)
Inductive policy_for := FOR_ALL | FOR (c : command).

Section Engine.

Variable Row : Type.

Definition qual := database -> session -> Row -> Sql.tri.

(** One row of the policy catalog.  All policies of the migrations are
    permissive (none is declared AS RESTRICTIVE) and none names a role, so
    each applies to every caller. *)
Record policy := mkPolicy {
  policyname : string;
  polcmd : policy_for;
  polqual : option qual;        (* USING *)
  polwithcheck : option qual    (* WITH CHECK *)
}.

Definition applies (p : policy) (c : command) : bool :=
  match polcmd p with
  | FOR_ALL => true
  | FOR c' => command_eqb c c'
  end.

Definition policies_for (c : command) (cat : list policy) : list policy :=
  filter (fun p => applies p c) cat.

(** The expression a policy contributes for existing rows. *)
Definition using_of (p : policy) : list qual :=
  match polqual p with
  | Some q => [q]
  | None => []
  end.

(** The expression a policy contributes for new rows: its WITH CHECK, and
    its USING when it has no WITH CHECK. *)
Definition check_of (p : policy) : list qual :=
  match polwithcheck p with
  | Some q => [q]
  | None => using_of p
  end.

(** Permissive policies are joined by OR; with no policy the row is
    refused (the constant FALSE). *)
Definition any_of (qs : list qual) (db : database) (s : session) (r : Row) : Sql.tri :=
  fold_right (fun q acc => Sql.or (q db s r) acc) Sql.FALSE qs.

Definition using_holds (cat : list policy) (c : command)
           (db : database) (s : session) (r : Row) : bool :=
  Sql.holds (any_of (flat_map using_of (policies_for c cat)) db s r).

Definition check_holds (cat : list policy) (c : command)
           (db : database) (s : session) (r : Row) : bool :=
  Sql.holds (any_of (flat_map check_of (policies_for c cat)) db s r).

(** A statement, seen from one row. *)
Inductive statement :=
| Select (r : Row)
| Insert (new : Row)
| Update (old new : Row)
| Delete (old : Row).

(** What happens to the row: the statement goes through; the existing row
    is filtered out by USING, silently; or the new row fails WITH CHECK and
    the statement raises. *)
Inductive verdict := Granted | Hidden | Violation.

Definition verdict_eqb (a b : verdict) : bool :=
  match a, b with
  | Granted, Granted | Hidden, Hidden | Violation, Violation => true
  | _, _ => false
  end.

(** [reads] says that the statement also needs SELECT rights on the table:
    it has a RETURNING clause, or a WHERE clause or SET expression that
    names a column.  The SELECT policies are then applied too, to the
    existing row as a filter and to the new row as a check. *)
Definition select_too (reads : bool) (cat : list policy)
           (db : database) (s : session) (r : Row) : bool :=
  if reads then using_holds cat SELECT db s r else true.

Definition rls (cat : list policy) (reads : bool)
           (db : database) (s : session) (st : statement) : verdict :=
  match st with
  | Select r =>
      if using_holds cat SELECT db s r then Granted else Hidden
  | Insert new =>
      if check_holds cat INSERT db s new && select_too reads cat db s new
      then Granted else Violation
  | Update old new =>
      if using_holds cat UPDATE db s old && select_too reads cat db s old
      then if check_holds cat UPDATE db s new && select_too reads cat db s new
           then Granted else Violation
      else Hidden
  | Delete old =>
      if using_holds cat DELETE db s old && select_too reads cat db s old
      then Granted else Hidden
  end.

Definition granted (cat : list policy) (reads : bool)
           (db : database) (s : session) (st : statement) : bool :=
  verdict_eqb (rls cat reads db s st) Granted.

(** CREATE POLICY inside [IF NOT EXISTS (SELECT 1 FROM pg_policies WHERE
    policyname = ...)]: the catalog is left alone when it already has a
    policy of that name. *)
Definition create_policy_if_absent (p : policy) (cat : list policy) : list policy :=
  if existsb (fun q => String.eqb (policyname q) (policyname p)) cat
  then cat
  else cat ++ [p].

End Engine.

Arguments Select {Row} r.
Arguments Insert {Row} new.
Arguments Update {Row} old new.
Arguments Delete {Row} old.

(** ** Functions of the migrations *)

(** [[
    CREATE OR REPLACE FUNCTION public.get_current_user_role() RETURNS TEXT AS
      SELECT role::text FROM public.profiles WHERE id = auth.uid();
    LANGUAGE SQL SECURITY DEFINER STABLE
    ]]
    It runs with its owner's rights, so it reads [profiles] past the
    policies.  A SQL function that returns a scalar gives the first row of its
    query, and NULL when the query has no row. *)
Definition get_current_user_role (db : database) (s : session) : option string :=
  hd_error
    (map (fun p => role_text (Profiles.role p))
         (filter (fun p => Sql.holds (Sql.eq (Some (Profiles.id p)) (auth_uid s)))
                 (profiles db))).

(** The test every admin policy makes: [get_current_user_role() = 'admin']. *)
Definition is_admin (db : database) (s : session) : Sql.tri :=
  Sql.eq (get_current_user_role db s) (Some "admin").

(** ** The policy catalog, table by table

    The first migration declared the admin policies with a sub-query on
    [profiles]; the second drops those six and creates them again on
    [get_current_user_role].  The catalog below is the one the migrations
    leave behind. *)

Module ProfilesPolicies.

Definition view_own : policy Profiles.row :=
  mkPolicy "Users can view their own profile" (FOR SELECT)
    (Some (fun _ s r => Sql.eq (auth_uid s) (Some (Profiles.id r))))
    None.

Definition update_own : policy Profiles.row :=
  mkPolicy "Users can update their own profile" (FOR UPDATE)
    (Some (fun _ s r => Sql.eq (auth_uid s) (Some (Profiles.id r))))
    None.

Definition admins_view_all : policy Profiles.row :=
  mkPolicy "Admins can view all profiles" (FOR SELECT)
    (Some (fun db s _ => is_admin db s))
    None.

(** [NOT is_blocked OR auth.uid() = id OR get_current_user_role() = 'admin'] *)
Definition blocked_qual : qual Profiles.row :=
  fun db s r =>
    Sql.or (Sql.or (Sql.not (Profiles.is_blocked r))
                   (Sql.eq (auth_uid s) (Some (Profiles.id r))))
           (is_admin db s).

Definition blocked : policy Profiles.row :=
  mkPolicy "Blocked users cannot access data" FOR_ALL
    (Some blocked_qual)
    None.

(** The policy is created once by the migration that adds [is_blocked], and
    the later migration creates it only when it is missing. *)
Definition catalog : list (policy Profiles.row) :=
  create_policy_if_absent blocked
    ([view_own; update_own; admins_view_all] ++ [blocked]).

End ProfilesPolicies.

Module CategoriesPolicies.

Definition anyone_view : policy Categories.row :=
  mkPolicy "Anyone can view categories" (FOR SELECT)
    (Some (fun _ _ _ => Sql.TRUE))
    None.

Definition admins_manage : policy Categories.row :=
  mkPolicy "Admins can manage categories" FOR_ALL
    (Some (fun db s _ => is_admin db s))
    None.

Definition catalog : list (policy Categories.row) :=
  [anyone_view; admins_manage].

End CategoriesPolicies.

Module BooksPolicies.

Definition anyone_view : policy Books.row :=
  mkPolicy "Anyone can view books" (FOR SELECT)
    (Some (fun _ _ _ => Sql.TRUE))
    None.

Definition admins_manage : policy Books.row :=
  mkPolicy "Admins can manage books" FOR_ALL
    (Some (fun db s _ => is_admin db s))
    None.

Definition catalog : list (policy Books.row) :=
  [anyone_view; admins_manage].

End BooksPolicies.

Module CartItemsPolicies.

Definition manage_own : policy CartItems.row :=
  mkPolicy "Users can manage their own cart" FOR_ALL
    (Some (fun _ s r => Sql.eq (auth_uid s) (Some (CartItems.user_id r))))
    None.

Definition catalog : list (policy CartItems.row) := [manage_own].

End CartItemsPolicies.

Module OrdersPolicies.

Definition view_own : policy Orders.row :=
  mkPolicy "Users can view their own orders" (FOR SELECT)
    (Some (fun _ s r => Sql.eq (auth_uid s) (Some (Orders.user_id r))))
    None.

Definition create_own : policy Orders.row :=
  mkPolicy "Users can create their own orders" (FOR INSERT)
    None
    (Some (fun _ s r => Sql.eq (auth_uid s) (Some (Orders.user_id r)))).

Definition admins_view_all : policy Orders.row :=
  mkPolicy "Admins can view all orders" (FOR SELECT)
    (Some (fun db s _ => is_admin db s))
    None.

Definition admins_update : policy Orders.row :=
  mkPolicy "Admins can update orders" (FOR UPDATE)
    (Some (fun db s _ => is_admin db s))
    None.

Definition catalog : list (policy Orders.row) :=
  [view_own; create_own; admins_view_all; admins_update].

End OrdersPolicies.

Module OrderItemsPolicies.

(** A sub-query inside a policy runs as the caller, so it sees the rows of
    [orders] that the SELECT policies of [orders] let that caller see. *)
Definition orders_seen (db : database) (s : session) : list Orders.row :=
  filter (using_holds OrdersPolicies.catalog SELECT db s) (orders db).

(** [[
    EXISTS (SELECT 1 FROM public.orders
            WHERE id = order_id AND user_id = auth.uid())
    ]]
    [id] and [user_id] are columns of [orders]; [order_id] is the column of
    the order item under test.  EXISTS is never NULL. *)
Definition own_order_exists : qual OrderItems.row :=
  fun db s it =>
    Some (existsb
            (fun o => Sql.holds
                        (Sql.and (Sql.eq (Some (Orders.id o)) (Some (OrderItems.order_id it)))
                                 (Sql.eq (Some (Orders.user_id o)) (auth_uid s))))
            (orders_seen db s)).

Definition view_own : policy OrderItems.row :=
  mkPolicy "Users can view their own order items" (FOR SELECT)
    (Some own_order_exists)
    None.

Definition create_own : policy OrderItems.row :=
  mkPolicy "Users can create order items for their orders" (FOR INSERT)
    None
    (Some own_order_exists).

Definition admins_view_all : policy OrderItems.row :=
  mkPolicy "Admins can view all order items" (FOR SELECT)
    (Some (fun db s _ => is_admin db s))
    None.

Definition catalog : list (policy OrderItems.row) :=
  [view_own; create_own; admins_view_all].

End OrderItemsPolicies.

(** ** The registration trigger *)

(** The errors an INSERT into [profiles] can raise. *)
Inductive sql_error := not_null_violation | unique_violation.

Definition outcome := (sum sql_error database).

(** [j ->> k]: the field [k] of a JSON object as text, NULL when [j] is NULL
    or has no such field. *)
Definition json_text (j : option (list (string * string))) (k : string) : option string :=
  match j with
  | None => None
  | Some fields =>
      match find (fun kv => String.eqb (fst kv) k) fields with
      | Some kv => Some (snd kv)
      | None => None
      end
  end.

Definition has_profile (k : uuid) (db : database) : bool :=
  existsb (fun p => String.eqb (Profiles.id p) k) (profiles db).

(** The row that [INSERT INTO public.profiles (id, email, full_name)] builds.
    The columns left out take their defaults: [role] is 'customer',
    [is_blocked] is FALSE, both timestamps are now(), [phone] and [address]
    are NULL. *)
Definition new_profile (now : timestamptz)
           (i : uuid) (e : string) (n : option string) : Profiles.row :=
  Profiles.mk i e n None None customer now now (Some false).

(** [INSERT INTO public.profiles (id, email, full_name) VALUES (i, e, n)].
    The NOT NULL constraint on [email] is tested before the row reaches the
    primary-key index. *)
Definition insert_profile (now : timestamptz)
           (i : uuid) (e : option string) (n : option string)
           (db : database) : outcome :=
  match e with
  | None => inl not_null_violation
  | Some e' =>
      if has_profile i db
      then inl unique_violation
      else inr (mkDb (profiles db ++ [new_profile now i e' n]) (orders db))
  end.

(** [[
    CREATE OR REPLACE FUNCTION public.handle_new_user() RETURNS TRIGGER AS
    BEGIN
      INSERT INTO public.profiles (id, email, full_name)
      VALUES (new.id, new.email,
              COALESCE(new.raw_user_meta_data->>'full_name', ''));
      RETURN new;
    END;
    ]]
    fired by [on_auth_user_created], AFTER INSERT ON auth.users FOR EACH ROW.
    The value an AFTER trigger returns is dropped, so the function is modelled
    by what it does to the database. *)
Definition handle_new_user (now : timestamptz) (new : AuthUsers.row)
           (db : database) : outcome :=
  insert_profile now
    (AuthUsers.id new)
    (AuthUsers.email new)
    (Some (Sql.coalesce (json_text (AuthUsers.raw_user_meta_data new) "full_name") ""))
    db.

(** The number of registry rows kept under a key. *)
Definition profile_count (k : uuid) (db : database) : nat :=
  List.length (filter (fun p => String.eqb (Profiles.id p) k) (profiles db)).

(** ** Statements the application sends *)

(** [UPDATE orders SET status = s WHERE id = ...], seen from the row. *)
Definition set_status (s : order_status) (o : Orders.row) : Orders.row :=
  Orders.mk (Orders.id o) (Orders.user_id o) (Orders.total_amount o) s
            (Orders.shipping_address o) (Orders.created_at o) (Orders.updated_at o).

(** [UPDATE profiles SET role = r, is_blocked = b WHERE id = ...]. *)
Definition set_role_blocked (r : user_role) (b : option bool)
           (p : Profiles.row) : Profiles.row :=
  Profiles.mk (Profiles.id p) (Profiles.email p) (Profiles.full_name p)
              (Profiles.phone p) (Profiles.address p) r
              (Profiles.created_at p) (Profiles.updated_at p) b.

(** The caller's resolved role is admin. *)
Definition resolves_admin (db : database) (s : session) : Prop :=
  get_current_user_role db s = Some "admin".

(** The caller has no registry row. *)
Definition no_registry_row (db : database) (s : session) : Prop :=
  forall p, In p (profiles db) -> auth_uid s <> Some (Profiles.id p).

(** ** Sample data *)

Module Sample.

Local Open Scope Z_scope.

Definition alice_id : uuid := "a0000000-0000-0000-0000-00000000000a".
Definition bob_id : uuid := "b0000000-0000-0000-0000-00000000000b".
Definition root_id : uuid := "00000000-0000-0000-0000-000000000001".

Definition alice : Profiles.row :=
  Profiles.mk alice_id "alice@example.org" (Some "Alice") None None
              customer 10 10 (Some false).

(** Bob has been blocked by an administrator. *)
Definition bob : Profiles.row :=
  Profiles.mk bob_id "bob@example.org" (Some "Bob") None None
              customer 20 20 (Some true).

(** The row the admin migration inserts. *)
Definition root : Profiles.row :=
  Profiles.mk root_id "admin@admin.com" (Some "Admin User") None None
              admin 0 0 (Some false).

Definition alice_order : Orders.row :=
  Orders.mk "0a000000-0000-0000-0000-000000000001" alice_id 1999 confirmed
            "1 Tea Lane" 30 30.

Definition alice_item : OrderItems.row :=
  OrderItems.mk "1a000000-0000-0000-0000-000000000001"
                (Orders.id alice_order)
                "b0000000-0000-0000-0000-0000000000b1" 1 1999 30.

Definition alice_cart : CartItems.row :=
  CartItems.mk "ca000000-0000-0000-0000-000000000001" alice_id
               "b0000000-0000-0000-0000-0000000000b1" 2 25.

Definition db : database := mkDb [root; alice; bob] [alice_order].

Definition empty : database := mkDb [] [].

Definition carol : AuthUsers.row :=
  AuthUsers.mk "c0000000-0000-0000-0000-00000000000c"
               (Some "carol@example.org")
               (Some [("full_name", "Carol")]).

Definition with_carol : database :=
  mkDb [Profiles.mk "c0000000-0000-0000-0000-00000000000c" "carol@example.org"
                    (Some "Carol") None None customer 40 40 (Some false)]
       [].

End Sample.

(** ** Reviews *)

Module Reviews.
Record row := mk {
  id : uuid;
  user_id : uuid;               (* NOT NULL *)
  book_id : uuid;               (* NOT NULL *)
  rating : Z;                   (* CHECK (rating >= 1 AND rating <= 5) *)
  comment : option string;
  created_at : timestamptz
}.
End Reviews.

Module ReviewsPolicies.

Definition anyone_view : policy Reviews.row :=
  mkPolicy "Anyone can view reviews" (FOR SELECT)
    (Some (fun _ _ _ => Sql.TRUE))
    None.

Definition manage_own : policy Reviews.row :=
  mkPolicy "Users can manage their own reviews" FOR_ALL
    (Some (fun _ s r => Sql.eq (auth_uid s) (Some (Reviews.user_id r))))
    None.

Definition catalog : list (policy Reviews.row) := [anyone_view; manage_own].

End ReviewsPolicies.

(** ** The admin seed *)

Definition admin_id : string := "00000000-0000-0000-0000-000000000001".

(** The row of the VALUES list; the columns left out take their defaults. *)
Definition admin_profile (now : timestamptz) : Profiles.row :=
  Profiles.mk admin_id "admin@admin.com" (Some "Admin User") None None
              admin now now (Some false).

(** [profiles.id] REFERENCES auth.users(id): a row that is really inserted
    needs its identity in [auth.users]. *)
Inductive seed_error := foreign_key_violation.

(** [[
    CREATE OR REPLACE FUNCTION create_admin_user() RETURNS void AS
    BEGIN
      INSERT INTO public.profiles (id, email, full_name, role)
      VALUES ('00000000-0000-0000-0000-000000000001', 'admin@admin.com',
              'Admin User', 'admin')
      ON CONFLICT (id) DO NOTHING;
    END;
    ]]
    The same INSERT is also run once by the migration itself.  On a conflict
    nothing is inserted and nothing is raised; otherwise the row goes in and
    the foreign key is tested. *)
Definition create_admin_user (now : timestamptz) (users : list AuthUsers.row)
           (db : database) : sum seed_error database :=
  if has_profile admin_id db
  then inr db
  else if existsb (fun u => String.eqb (AuthUsers.id u) admin_id) users
       then inr (mkDb (profiles db ++ [admin_profile now]) (orders db))
       else inl foreign_key_violation.

(** The primary key of [profiles]. *)
Definition profiles_pk (db : database) : Prop :=
  NoDup (map Profiles.id (profiles db)).

(** The primary key of [orders]. *)
Definition orders_pk (db : database) : Prop :=
  NoDup (map Orders.id (orders db)).

(** ** Statements run over a table

    A statement with a WHERE clause meets every row of the table.  The rows
    that the USING policies filter out are skipped without a word; a new row
    that fails its check makes the whole statement raise, and then nothing is
    changed.  The policies are evaluated on the database as it is before the
    statement. *)

Section Run.

Variable Row : Type.
Variable cat : list (policy Row).
Variable reads : bool.
Variable db : database.
Variable s : session.

(** SELECT ... WHERE w *)
Definition run_select (w : Row -> bool) (t : list Row) : list Row :=
  filter (fun r => w r && using_holds cat SELECT db s r) t.

(** UPDATE ... SET ... WHERE w; [None] when the statement raises. *)
Definition run_update (w : Row -> bool) (set : Row -> Row)
           (t : list Row) : option (list Row) :=
  if existsb (fun r => w r && verdict_eqb (rls cat reads db s (Update r (set r))) Violation) t
  then None
  else Some (map (fun r => if w r && granted cat reads db s (Update r (set r))
                           then set r else r) t).

(** DELETE ... WHERE w *)
Definition run_delete (w : Row -> bool) (t : list Row) : list Row :=
  filter (fun r => negb (w r && granted cat reads db s (Delete r))) t.

End Run.

(** ** Statements the pages send *)

(** INTEGER columns hold 32-bit signed values; a larger value makes the
    statement raise. *)
Definition int4_ok (n : Z) : bool :=
  ((-2147483648 <=? n) && (n <=? 2147483647))%Z.

Definition set_quantity (q : Z) (r : CartItems.row) : CartItems.row :=
  CartItems.mk (CartItems.id r) (CartItems.user_id r) (CartItems.book_id r)
               q (CartItems.created_at r).

(** The result of [.single()]: the row when the answer has exactly one,
    nothing otherwise. *)
Definition single {A : Type} (l : list A) : option A :=
  match l with
  | [x] => Some x
  | _ => None
  end.

(** [supabase.from('cart_items').update({ quantity: q }).eq('id', itemId)].
    An error is shown to the user and the cart stays as it was. *)
Definition update_quantity (db : database) (s : session)
           (itemId : uuid) (q : Z)
           (cart : list CartItems.row) : list CartItems.row :=
  if int4_ok q
  then match run_update CartItemsPolicies.catalog true db s
                        (fun r => String.eqb (CartItems.id r) itemId)
                        (set_quantity q) cart with
       | Some cart' => cart'
       | None => cart
       end
  else cart.

(** [[
    const updateQuantity = async (itemId, newQuantity) => {
      if (newQuantity < 1) return;
      ... supabase.from('cart_items').update({ quantity: newQuantity })
                  .eq('id', itemId);
    ]]
    (the Cart page). *)
Definition updateQuantity (db : database) (s : session)
           (itemId : uuid) (newQuantity : Z)
           (cart : list CartItems.row) : list CartItems.row :=
  if (newQuantity <? 1)%Z then cart
  else update_quantity db s itemId newQuantity cart.

(** [supabase.from('cart_items').delete().eq('id', itemId)] (the Cart page). *)
Definition removeItem (db : database) (s : session) (itemId : uuid)
           (cart : list CartItems.row) : list CartItems.row :=
  run_delete CartItemsPolicies.catalog true db s
             (fun r => String.eqb (CartItems.id r) itemId) cart.

(** [supabase.from("cart_items").delete().eq("user_id", user.id)], the last
    step of [handlePlaceOrder]. *)
Definition clear_cart (db : database) (s : session) (user : uuid)
           (cart : list CartItems.row) : list CartItems.row :=
  run_delete CartItemsPolicies.catalog true db s
             (fun r => String.eqb (CartItems.user_id r) user) cart.

(** The UNIQUE (user_id, book_id) constraint of [cart_items], as a test on
    a row about to be inserted. *)
Definition in_cart (u b : uuid) (cart : list CartItems.row) : bool :=
  existsb (fun r => String.eqb (CartItems.user_id r) u
                    && String.eqb (CartItems.book_id r) b) cart.

(** [[
    const handleAddToCart = async () => {
      if (!user) { ...; return; }
      const { data: existing } = await supabase.from('cart_items')
        .select('id, quantity').eq('user_id', user.id).eq('book_id', bookId)
        .single();
      if (existing) {
        ... .update({ quantity: existing.quantity + 1 }).eq('id', existing.id);
      } else {
        ... .insert({ user_id: user.id, book_id: bookId, quantity: 1 });
      }
    ]]
    (the add-to-cart button).  The requests carry the token of [user].
    [fresh] is the key that gen_random_uuid() draws and [now] the clock, for
    the row that may be inserted; [books] holds the keys of the table
    [books], which [book_id] must reference ([user_id] references the
    identity the token was issued for).  Every error ends in a message to
    the user and leaves the cart as it was. *)
Definition handleAddToCart (db : database) (books : list uuid)
           (user : option uuid) (bookId : uuid)
           (fresh : uuid) (now : timestamptz)
           (cart : list CartItems.row) : list CartItems.row :=
  match user with
  | None => cart
  | Some u =>
      let s := signed_in u in
      match single (run_select CartItemsPolicies.catalog db s
                      (fun r => String.eqb (CartItems.user_id r) u
                                && String.eqb (CartItems.book_id r) bookId)
                      cart) with
      | Some existing =>
          update_quantity db s (CartItems.id existing)
                          (CartItems.quantity existing + 1)%Z cart
      | None =>
          let new := CartItems.mk fresh u bookId 1%Z now in
          if granted CartItemsPolicies.catalog false db s (Insert new)
             && negb (existsb (fun r => String.eqb (CartItems.id r) fresh) cart)
             && negb (in_cart u bookId cart)
             && existsb (String.eqb bookId) books
          then cart ++ [new]
          else cart
      end
  end.

(** The copies of book [b] that the cart holds for user [u]. *)
Definition copies (u b : uuid) (cart : list CartItems.row) : Z :=
  fold_right Z.add 0%Z
    (map CartItems.quantity
         (filter (fun r => String.eqb (CartItems.user_id r) u
                           && String.eqb (CartItems.book_id r) b) cart)).

(** The constraints of [cart_items]: its primary key and UNIQUE (user_id,
    book_id). *)
Definition cart_pk (cart : list CartItems.row) : Prop :=
  NoDup (map CartItems.id cart).

Definition cart_unique (cart : list CartItems.row) : Prop :=
  NoDup (map (fun r => (CartItems.user_id r, CartItems.book_id r)) cart).

(** JavaScript's [!x] on a value that is a boolean or null. *)
Definition js_not (b : option bool) : bool :=
  match b with
  | Some true => false
  | _ => true
  end.

Definition set_is_blocked (b : option bool) (p : Profiles.row) : Profiles.row :=
  Profiles.mk (Profiles.id p) (Profiles.email p) (Profiles.full_name p)
              (Profiles.phone p) (Profiles.address p) (Profiles.role p)
              (Profiles.created_at p) (Profiles.updated_at p) b.

(** *** Keys sent as text

    A page sends a key as text; the filter [.eq('id', key)] compares it
    with a UUID column, so the text is read as a UUID first.  [uuid_in] is
    that reading: an optional opening brace, sixteen bytes of two hexadecimal
    digits each, a hyphen allowed after every second byte but the last, the
    closing brace when there was an opening one, and nothing after.  Text that
    does not read this way makes the statement raise ("invalid input syntax
    for type uuid").  The result is the UUID as the database prints it, in
    lower case with four hyphens, which is how the rows here keep their
    keys. *)

Definition hex_digit (c : Ascii.ascii) : option Ascii.ascii :=
  let n := Ascii.nat_of_ascii c in
  if ((48 <=? n) && (n <=? 57))%nat then Some c
  else if ((97 <=? n) && (n <=? 102))%nat then Some c
  else if ((65 <=? n) && (n <=? 70))%nat then Some (Ascii.ascii_of_nat (n + 32))
  else None.

(** Reads [n] bytes, the next one being byte number [i]; gives the digits
    read, in lower case, and the text left. *)
Fixpoint uuid_bytes (n i : nat) (src : string)
  : option (list Ascii.ascii * string) :=
  match n with
  | O => Some ([], src)
  | S n' =>
      match src with
      | String a (String b rest) =>
          match hex_digit a, hex_digit b with
          | Some a', Some b' =>
              let rest' :=
                match rest with
                | String "-"%char r =>
                    if (Nat.odd i && (i <? 15))%nat then r else rest
                | _ => rest
                end in
              match uuid_bytes n' (S i) rest' with
              | Some (ds, tl) => Some (a' :: b' :: ds, tl)
              | None => None
              end
          | _, _ => None
          end
      | _ => None
      end
  end.

(** The printed form: hyphens before digits 8, 12, 16 and 20. *)
Fixpoint uuid_text (i : nat) (ds : list Ascii.ascii) : string :=
  match ds with
  | [] => EmptyString
  | d :: ds' =>
      let tl := String d (uuid_text (S i) ds') in
      if ((i =? 8) || (i =? 12) || (i =? 16) || (i =? 20))%nat
      then String "-"%char tl else tl
  end.

Definition uuid_in (key : string) : option uuid :=
  let (braces, src) :=
    match key with
    | String "{"%char r => (true, r)
    | _ => (false, key)
    end in
  match uuid_bytes 16 0 src with
  | Some (ds, tl) =>
      let tl' :=
        if braces
        then match tl with
             | String "}"%char r => Some r
             | _ => None
             end
        else Some tl in
      match tl' with
      | Some EmptyString => Some (uuid_text 0 ds)
      | _ => None
      end
  | None => None
  end.

(** [[
    const toggleUserBlock = async (userId, isBlocked) => {
      ... supabase.from('profiles').update({ is_blocked: !isBlocked })
                  .eq('id', userId);
    ]]
    (the Admin page).  [None] is the error branch: the statement raised,
    on the key or on a policy, and the table is as before. *)
Definition toggleUserBlock (db : database) (s : session)
           (userId : string) (isBlocked : option bool) : option database :=
  match uuid_in userId with
  | None => None
  | Some k =>
      match run_update ProfilesPolicies.catalog true db s
                       (fun p => String.eqb (Profiles.id p) k)
                       (set_is_blocked (Some (js_not isBlocked)))
                       (profiles db) with
      | Some ps => Some (mkDb ps (orders db))
      | None => None
      end
  end.

(** [[
    const updateOrderStatus = async (orderId, newStatus) => {
      ... supabase.from('orders').update({ status: newStatus })
                  .eq('id', orderId);
    ]]
    (the Admin page); [None] is the error branch. *)
Definition updateOrderStatus (db : database) (s : session)
           (orderId : string) (newStatus : order_status) : option database :=
  match uuid_in orderId with
  | None => None
  | Some k =>
      match run_update OrdersPolicies.catalog true db s
                       (fun o => String.eqb (Orders.id o) k)
                       (set_status newStatus)
                       (orders db) with
      | Some os => Some (mkDb (profiles db) os)
      | None => None
      end
  end.

(** DECIMAL(10,2), counted in hundredths: at most ten digits. *)
Definition numeric_10_2_ok (n : Z) : bool :=
  (Z.abs n <? 10000000000)%Z.

Inductive order_error :=
| order_policy_violation      (* new row violates row-level security *)
| order_numeric_overflow
| order_unique_violation.

(** [INSERT INTO orders ... RETURNING *], the first request of
    [handlePlaceOrder] ([.insert({...}).select().single()]), for the row [o]
    that the request and the column defaults make up.  The row is tested
    against the policies before it reaches the table. *)
Definition insert_order (db : database) (s : session) (o : Orders.row)
  : sum order_error database :=
  if negb (numeric_10_2_ok (Orders.total_amount o)) then inl order_numeric_overflow
  else if negb (granted OrdersPolicies.catalog true db s (Insert o))
       then inl order_policy_violation
       else if existsb (fun o' => String.eqb (Orders.id o') (Orders.id o)) (orders db)
            then inl order_unique_violation
            else inr (mkDb (profiles db) (orders db ++ [o])).

(** ** Identities

    [profiles.id] REFERENCES auth.users(id) ON DELETE CASCADE, and so does
    [orders.user_id]; a foreign key can only point at a unique column, so
    [auth.users] holds one row per key.  The trigger [on_auth_user_created]
    runs [handle_new_user] AFTER INSERT ON auth.users FOR EACH ROW, inside
    the inserting statement: when the function raises, the identity is not
    created either. *)

Record world := mkWorld {
  identities : list AuthUsers.row;
  data : database
}.

Definition has_identity (k : uuid) (w : world) : bool :=
  existsb (fun u => String.eqb (AuthUsers.id u) k) (identities w).



(** DELETE FROM auth.users WHERE id = k, with the cascades to [profiles]
    and [orders]. *)
Definition delete_identity (k : uuid) (w : world) : world :=
  mkWorld
    (filter (fun u => negb (String.eqb (AuthUsers.id u) k)) (identities w))
    (mkDb (filter (fun p => negb (String.eqb (Profiles.id p) k)) (profiles (data w)))
          (filter (fun o => negb (String.eqb (Orders.user_id o) k)) (orders (data w)))).

(** The foreign key of [profiles]: every registry row has its identity. *)
Definition registry_fk (w : world) : Prop :=
  forall p, In p (profiles (data w)) -> has_identity (Profiles.id p) w = true.

(** ** More sample data *)

Module Shop.

Local Open Scope Z_scope.

Definition identity_of (p : Profiles.row) : AuthUsers.row :=
  AuthUsers.mk (Profiles.id p) (Some (Profiles.email p)) None.


Definition carol_row : Profiles.row :=
  new_profile 40 (AuthUsers.id Sample.carol) "carol@example.org" (Some "Carol").

Definition db_with_carol : database :=
  mkDb [Sample.root; Sample.alice; Sample.bob; carol_row] [Sample.alice_order].



(** A registry without the admin row. *)
Definition db_unseeded : database :=
  mkDb [Sample.alice; Sample.bob] [Sample.alice_order].

Definition book1 : uuid := "b0000000-0000-0000-0000-0000000000b1".
Definition book2 : uuid := "b0000000-0000-0000-0000-0000000000b2".
Definition book3 : uuid := "b0000000-0000-0000-0000-0000000000b3".

Definition alice_cart2 : CartItems.row :=
  CartItems.mk "ca000000-0000-0000-0000-000000000002" Sample.alice_id book2 1 26.

Definition bob_cart : CartItems.row :=
  CartItems.mk "ca000000-0000-0000-0000-000000000003" Sample.bob_id book1 4 27.

(** Alice holds two books, Bob one of the same. *)
Definition cart : list CartItems.row :=
  [Sample.alice_cart; alice_cart2; bob_cart].

Definition alice_cart3 : CartItems.row :=
  CartItems.mk "ca000000-0000-0000-0000-000000000004" Sample.alice_id book3 1 28.

End Shop.

(** * Properties *)

Unset Implicit Arguments.

(** ** Three-valued logic *)

Lemma holds_true_iff (a : Sql.tri) : Sql.holds a = true <-> a = Sql.TRUE.
Proof.
  destruct a as [[|]|]; simpl; split; intro H; try reflexivity; discriminate H.
Qed.

Lemma holds_or (a b : Sql.tri) :
  Sql.holds (Sql.or a b) = Sql.holds a || Sql.holds b.
Proof. destruct a as [[|]|], b as [[|]|]; reflexivity. Qed.

Lemma holds_and (a b : Sql.tri) :
  Sql.holds (Sql.and a b) = Sql.holds a && Sql.holds b.
Proof. destruct a as [[|]|], b as [[|]|]; reflexivity. Qed.

Lemma holds_eq_iff (a : option string) (b : string) :
  Sql.holds (Sql.eq a (Some b)) = true <-> a = Some b.
Proof.
  destruct a as [x|]; simpl.
  - destruct (String.eqb_spec x b) as [->|Hne]; split; intro H;
      try reflexivity; try discriminate H.
    injection H as ->. now elim Hne.
  - split; intro H; discriminate H.
Qed.

Lemma holds_eq_sym (a b : option string) :
  Sql.holds (Sql.eq a b) = Sql.holds (Sql.eq b a).
Proof.
  destruct a as [x|], b as [y|]; simpl; try reflexivity.
  now rewrite String.eqb_sym.
Qed.

Lemma holds_eq_refl (x : string) : Sql.holds (Sql.eq (Some x) (Some x)) = true.
Proof. simpl. now rewrite String.eqb_refl. Qed.

(** A test against a NULL [auth.uid()] never holds. *)
Lemma holds_eq_null (b : option string) : Sql.holds (Sql.eq None b) = false.
Proof. reflexivity. Qed.

(** The OR of the policy expressions holds exactly when one of them does. *)
Lemma holds_any_of (Row : Type) (qs : list (qual Row)) db s r :
  Sql.holds (any_of qs db s r) = existsb (fun q => Sql.holds (q db s r)) qs.
Proof.
  induction qs as [|q qs IH]; simpl.
  - reflexivity.
  - now rewrite holds_or, IH.
Qed.

(** ** The role resolver *)

Lemma is_admin_iff db s : Sql.holds (is_admin db s) = true <-> resolves_admin db s.
Proof. unfold is_admin, resolves_admin. apply holds_eq_iff. Qed.

Lemma is_admin_false db s : ~ resolves_admin db s -> Sql.holds (is_admin db s) = false.
Proof.
  intro H. destruct (Sql.holds (is_admin db s)) eqn:E; [|reflexivity].
  apply is_admin_iff in E. contradiction.
Qed.

Lemma role_of_unregistered db s :
  no_registry_row db s -> get_current_user_role db s = None.
Proof.
  unfold no_registry_row, get_current_user_role.
  destruct db as [ps os]; cbn [profiles]. intro H.
  induction ps as [|p ps IH]; cbn [filter]; [reflexivity|].
  destruct (Sql.holds (Sql.eq (Some (Profiles.id p)) (auth_uid s))) eqn:E.
  - rewrite holds_eq_sym in E. apply holds_eq_iff in E.
    exfalso. apply (H p); [now left | exact E].
  - apply IH. intros q Hq. apply H. now right.
Qed.

(** The resolved role is the role of the caller's registry row: the primary
    key leaves at most one row per identity. *)
Lemma role_of_registered db u p :
  NoDup (map Profiles.id (profiles db)) ->
  In p (profiles db) -> Profiles.id p = u ->
  get_current_user_role db (signed_in u) = Some (role_text (Profiles.role p)).
Proof.
  unfold get_current_user_role. destruct db as [ps os]; simpl.
  intros Hnd Hin <-.
  induction ps as [|q ps IH]; simpl in *; [contradiction|].
  inversion Hnd as [|? ? Hnotin Hnd']; subst.
  destruct Hin as [->|Hin].
  - now rewrite String.eqb_refl.
  - destruct (String.eqb_spec (Profiles.id q) (Profiles.id p)) as [E|_].
    + exfalso. apply Hnotin. rewrite E. now apply in_map.
    + now apply IH.
Qed.

(** ** Evaluating the catalogs *)

Lemma holds_eq_false_iff (a : option string) (b : string) :
  Sql.holds (Sql.eq a (Some b)) = false <-> a <> Some b.
Proof.
  rewrite <- holds_eq_iff. destruct (Sql.holds (Sql.eq a (Some b))); split;
    intro H; try reflexivity; try discriminate H; try (intro H'; discriminate H').
  now elim H.
Qed.

Lemma is_admin_false_iff db s :
  Sql.holds (is_admin db s) = false <-> ~ resolves_admin db s.
Proof. unfold is_admin, resolves_admin. apply holds_eq_false_iff. Qed.

(** The catalog of [profiles] that the migrations leave: the guarded CREATE
    POLICY of the last migration finds the policy in place and adds nothing. *)
Lemma profiles_catalog_final :
  ProfilesPolicies.catalog =
  [ProfilesPolicies.view_own; ProfilesPolicies.update_own;
   ProfilesPolicies.admins_view_all; ProfilesPolicies.blocked].
Proof. reflexivity. Qed.

Create Rewrite HintDb rls.
#[local] Hint Rewrite holds_or holds_and orb_false_r orb_true_r andb_true_r
  andb_false_r orb_diag andb_diag : rls.

(** Unfolds the engine on a concrete catalog, leaving the policy
    expressions themselves. *)
Ltac rls_unfold :=
  rewrite ?profiles_catalog_final;
  unfold granted, rls, select_too, using_holds, check_holds, policies_for;
  cbn [filter flat_map app applies polcmd polqual polwithcheck command_eqb
       using_of check_of any_of fold_right
       ProfilesPolicies.catalog CategoriesPolicies.catalog BooksPolicies.catalog
       CartItemsPolicies.catalog OrdersPolicies.catalog OrderItemsPolicies.catalog
       ProfilesPolicies.view_own ProfilesPolicies.update_own
       ProfilesPolicies.admins_view_all ProfilesPolicies.blocked
       CategoriesPolicies.anyone_view CategoriesPolicies.admins_manage
       BooksPolicies.anyone_view BooksPolicies.admins_manage
       CartItemsPolicies.manage_own
       OrdersPolicies.view_own OrdersPolicies.create_own
       OrdersPolicies.admins_view_all OrdersPolicies.admins_update
       OrderItemsPolicies.view_own OrderItemsPolicies.create_own
       OrderItemsPolicies.admins_view_all];
  autorewrite with rls.

(** Splits on each test left in the goal and turns the equation it leaves
    into the fact it stands for. *)
Ltac holds_cases :=
  repeat match goal with
         | |- context [Sql.holds ?a] =>
             let E := fresh "E" in destruct (Sql.holds a) eqn:E
         end;
  repeat match goal with
         | E : Sql.holds (is_admin _ _) = true |- _ => apply is_admin_iff in E
         | E : Sql.holds (is_admin _ _) = false |- _ => apply is_admin_false_iff in E
         | E : Sql.holds (Sql.eq _ (Some _)) = true |- _ => apply holds_eq_iff in E
         | E : Sql.holds (Sql.eq _ (Some _)) = false |- _ => apply holds_eq_false_iff in E
         end.

Ltac rls_solve :=
  rls_unfold; holds_cases;
  repeat match goal with b : bool |- _ => destruct b end;
  cbn [verdict_eqb andb orb negb];
  try reflexivity;
  try (split; intros; try reflexivity; try discriminate; try congruence;
       try tauto; intuition congruence).

(** ** Orders *)

(** C5.  An order row is inserted exactly when its [user_id] is the caller's
    identity: the only INSERT policy on [orders] is the WITH CHECK
    [auth.uid() = user_id], so an insert that names another identity, or that
    comes from an anonymous caller, is refused. *)
Theorem order_insert_iff_owner reads db s (o : Orders.row) :
  granted OrdersPolicies.catalog reads db s (Insert o) = true
  <-> auth_uid s = Some (Orders.user_id o).
Proof. rls_solve. Qed.

(** The general form for updates of [orders]: whatever the old and the new
    row are, only the resolved role counts. *)
Lemma order_update_iff_admin reads db s (old new : Orders.row) :
  granted OrdersPolicies.catalog reads db s (Update old new) = true
  <-> resolves_admin db s.
Proof. rls_solve. Qed.

(** C7.  Setting the status of an order to any value, from any current
    value, is granted when the caller's resolved role is admin and refused
    for every other caller, the order's owner included. *)
Theorem order_status_update_iff_admin reads db s (o : Orders.row)
        (from to : order_status) :
  granted OrdersPolicies.catalog reads db s
           (Update (set_status from o) (set_status to o)) = true
  <-> resolves_admin db s.
Proof. apply order_update_iff_admin. Qed.

(** Scenario 3 on the sample data: the administrator moves Alice's order from
    [confirmed] to [delivered]; Alice, its owner, cannot. *)
Example order_status_scenario :
  Orders.status Sample.alice_order = confirmed /\
  granted OrdersPolicies.catalog true Sample.db (signed_in Sample.root_id)
           (Update Sample.alice_order (set_status delivered Sample.alice_order)) = true /\
  rls OrdersPolicies.catalog true Sample.db (signed_in Sample.alice_id)
      (Update Sample.alice_order (set_status delivered Sample.alice_order)) = Hidden.
Proof. repeat split. Qed.

(** ** Categories and books *)

(** Every INSERT, UPDATE and DELETE on a table goes through exactly when the
    caller's resolved role is admin. *)
Definition admin_only_writes {Row : Type} (cat : list (policy Row)) : Prop :=
  forall reads db s,
    (forall r, granted cat reads db s (Insert r) = true <-> resolves_admin db s) /\
    (forall old new,
        granted cat reads db s (Update old new) = true <-> resolves_admin db s) /\
    (forall old, granted cat reads db s (Delete old) = true <-> resolves_admin db s).

Lemma categories_admin_only : admin_only_writes CategoriesPolicies.catalog.
Proof. intros reads db s. split; [|split]; intros; rls_solve. Qed.

Lemma books_admin_only : admin_only_writes BooksPolicies.catalog.
Proof. intros reads db s. split; [|split]; intros; rls_solve. Qed.

(** C6.  Creating, updating and deleting a category or a book is granted
    iff [get_current_user_role()] is 'admin' for the caller; any other
    caller is refused, and so is one whose role resolves to NULL. *)
Theorem catalog_writes_iff_admin :
  admin_only_writes CategoriesPolicies.catalog /\
  admin_only_writes BooksPolicies.catalog.
Proof. split; [apply categories_admin_only | apply books_admin_only]. Qed.

(** Reading categories and books is open to every caller. *)
Lemma catalog_reads_open reads db s :
  (forall c, rls CategoriesPolicies.catalog reads db s (Select c) = Granted) /\
  (forall b, rls BooksPolicies.catalog reads db s (Select b) = Granted).
Proof. split; intro; rls_unfold; reflexivity. Qed.

(** ** Cart items *)

(** C10.  On [cart_items] a SELECT, an INSERT and a DELETE of a row are
    granted iff [auth.uid()] is the row's [user_id]; an UPDATE is granted
    iff that holds of the row before and after the update; an anonymous
    caller is refused every statement. *)
Theorem cart_access_iff_owner reads db s :
  (forall r, granted CartItemsPolicies.catalog reads db s (Select r) = true
             <-> auth_uid s = Some (CartItems.user_id r)) /\
  (forall r, granted CartItemsPolicies.catalog reads db s (Insert r) = true
             <-> auth_uid s = Some (CartItems.user_id r)) /\
  (forall old new,
      granted CartItemsPolicies.catalog reads db s (Update old new) = true
      <-> auth_uid s = Some (CartItems.user_id old) /\
          auth_uid s = Some (CartItems.user_id new)) /\
  (forall r, granted CartItemsPolicies.catalog reads db s (Delete r) = true
             <-> auth_uid s = Some (CartItems.user_id r)) /\
  (forall st, granted CartItemsPolicies.catalog reads db anonymous st = false).
Proof.
  split; [|split; [|split; [|split]]]; intros; try solve [rls_solve].
  destruct st, reads; reflexivity.
Qed.

(** ** Order items *)

(** Under the primary key of [orders], an identifier names one row. *)
Lemma order_by_id (os : list Orders.row) (o o' : Orders.row) :
  NoDup (map Orders.id os) ->
  In o os -> In o' os -> Orders.id o = Orders.id o' -> o = o'.
Proof.
  induction os as [|x os IH]; simpl; [contradiction|].
  intros Hnd Ho Ho' E. inversion Hnd as [|? ? Hx Hnd']; subst.
  destruct Ho as [->|Ho], Ho' as [->|Ho'].
  - reflexivity.
  - exfalso. apply Hx. rewrite E. now apply in_map.
  - exfalso. apply Hx. rewrite <- E. now apply in_map.
  - now apply IH.
Qed.

(** The caller sees an order through the policies of [orders] as soon as it
    is the caller's own. *)
Lemma own_order_seen db s (o : Orders.row) :
  In o (orders db) -> auth_uid s = Some (Orders.user_id o) ->
  In o (OrderItemsPolicies.orders_seen db s).
Proof.
  intros Hin Hown. unfold OrderItemsPolicies.orders_seen.
  apply filter_In. split; [exact Hin|].
  rls_unfold. apply holds_eq_iff in Hown. now rewrite Hown.
Qed.

(** The sub-query of the order-item policies finds a row exactly when the
    caller owns the order the item refers to. *)
Lemma own_order_exists_iff db s (it : OrderItems.row) (o : Orders.row) :
  NoDup (map Orders.id (orders db)) ->
  In o (orders db) ->
  Orders.id o = OrderItems.order_id it ->
  Sql.holds (OrderItemsPolicies.own_order_exists db s it) = true
  <-> auth_uid s = Some (Orders.user_id o).
Proof.
  intros Hnd Hin Hid. unfold OrderItemsPolicies.own_order_exists.
  cbn [Sql.holds]. split.
  - intro H.
    assert (Hex : existsb
                    (fun o0 => Sql.holds
                       (Sql.and (Sql.eq (Some (Orders.id o0)) (Some (OrderItems.order_id it)))
                                (Sql.eq (Some (Orders.user_id o0)) (auth_uid s))))
                    (OrderItemsPolicies.orders_seen db s) = true).
    { destruct (existsb _ _); [reflexivity | discriminate H]. }
    apply existsb_exists in Hex. destruct Hex as (o' & Hseen & Hq).
    rewrite holds_and in Hq. apply andb_true_iff in Hq. destruct Hq as [Hq1 Hq2].
    apply holds_eq_iff in Hq1. injection Hq1 as Hq1.
    rewrite holds_eq_sym in Hq2. apply holds_eq_iff in Hq2.
    apply filter_In in Hseen. destruct Hseen as [Hin' _].
    assert (o' = o) as ->.
    { apply (order_by_id (orders db) o' o Hnd Hin' Hin). congruence. }
    exact Hq2.
  - intro Hown.
    assert (Hex : existsb
                    (fun o0 => Sql.holds
                       (Sql.and (Sql.eq (Some (Orders.id o0)) (Some (OrderItems.order_id it)))
                                (Sql.eq (Some (Orders.user_id o0)) (auth_uid s))))
                    (OrderItemsPolicies.orders_seen db s) = true).
    { apply existsb_exists. exists o. split.
      - now apply own_order_seen.
      - rewrite holds_and, Hid, holds_eq_refl, Hown. apply holds_eq_refl. }
    now rewrite Hex.
Qed.

(** C8.  With [o] the order an item refers to: inserting the item is
    granted iff the caller's identity is [o]'s [user_id]; and when the
    caller is not that owner, reading the item is granted iff the caller's
    resolved role is admin. *)
Theorem order_item_access reads db s (it : OrderItems.row) (o : Orders.row) :
  NoDup (map Orders.id (orders db)) ->
  In o (orders db) ->
  Orders.id o = OrderItems.order_id it ->
  (granted OrderItemsPolicies.catalog reads db s (Insert it) = true
   <-> auth_uid s = Some (Orders.user_id o)) /\
  (auth_uid s <> Some (Orders.user_id o) ->
   (granted OrderItemsPolicies.catalog reads db s (Select it) = true
    <-> resolves_admin db s)).
Proof.
  intros Hnd Hin Hid.
  pose proof (own_order_exists_iff db s it o Hnd Hin Hid) as Hown.
  split.
  - rewrite <- Hown. rls_unfold.
    destruct (Sql.holds (OrderItemsPolicies.own_order_exists db s it)),
      reads, (Sql.holds (is_admin db s)); cbn; intuition congruence.
  - intro Hother. rewrite <- Hown in Hother. rls_unfold.
    destruct (Sql.holds (OrderItemsPolicies.own_order_exists db s it)).
    + now elim Hother.
    + cbn [orb]. holds_cases; cbn; intuition congruence.
Qed.

Lemma order_item_access_witness :
  (NoDup (map Orders.id (orders Sample.db)) /\
   In Sample.alice_order (orders Sample.db) /\
   Orders.id Sample.alice_order = OrderItems.order_id Sample.alice_item) /\
  (granted OrderItemsPolicies.catalog true Sample.db (signed_in Sample.bob_id)
            (Insert Sample.alice_item) = true
   <-> auth_uid (signed_in Sample.bob_id) = Some (Orders.user_id Sample.alice_order)) /\
  (auth_uid (signed_in Sample.bob_id) <> Some (Orders.user_id Sample.alice_order) ->
   (granted OrderItemsPolicies.catalog true Sample.db (signed_in Sample.bob_id)
             (Select Sample.alice_item) = true
    <-> resolves_admin Sample.db (signed_in Sample.bob_id))).
Proof.
  assert (H1 : NoDup (map Orders.id (orders Sample.db))).
  { simpl. constructor; [intros [] | constructor]. }
  assert (H2 : In Sample.alice_order (orders Sample.db)) by (simpl; now left).
  assert (H3 : Orders.id Sample.alice_order = OrderItems.order_id Sample.alice_item)
    by reflexivity.
  split; [now repeat split |].
  exact (order_item_access true Sample.db (signed_in Sample.bob_id)
                            Sample.alice_item Sample.alice_order H1 H2 H3).
Defined.

(** ** Callers without a registry row *)

(** What one policy alone says of an existing row. *)
Definition policy_lets {Row : Type} (p : policy Row)
           (db : database) (s : session) (r : Row) : bool :=
  existsb (fun q => Sql.holds (q db s r)) (using_of p).

(** C9.  For a caller with no row in [profiles] (an anonymous caller is
    one), [get_current_user_role()] returns NULL, it does not raise; the test
    [get_current_user_role() = 'admin'] is then NULL, so none of the six
    admin policies lets a row through, and the caller can write neither
    categories nor books and can update no order. *)
Theorem unregistered_caller_is_not_admin db s :
  no_registry_row db s ->
  get_current_user_role db s = None /\
  is_admin db s = Sql.NULL /\
  ((forall r, policy_lets ProfilesPolicies.admins_view_all db s r = false) /\
   (forall r, policy_lets CategoriesPolicies.admins_manage db s r = false) /\
   (forall r, policy_lets BooksPolicies.admins_manage db s r = false) /\
   (forall r, policy_lets OrdersPolicies.admins_view_all db s r = false) /\
   (forall r, policy_lets OrdersPolicies.admins_update db s r = false) /\
   (forall r, policy_lets OrderItemsPolicies.admins_view_all db s r = false)) /\
  ((forall reads st, granted CategoriesPolicies.catalog reads db s st
                     = match st with Select _ => true | _ => false end) /\
   (forall reads st, granted BooksPolicies.catalog reads db s st
                     = match st with Select _ => true | _ => false end) /\
   (forall reads old new,
       granted OrdersPolicies.catalog reads db s (Update old new) = false)).
Proof.
  intro Hno. pose proof (role_of_unregistered db s Hno) as Hrole.
  assert (Hadm : is_admin db s = Sql.NULL).
  { unfold is_admin. now rewrite Hrole. }
  split; [exact Hrole|]. split; [exact Hadm|]. split.
  - unfold policy_lets; cbn; rewrite Hadm; repeat split.
  - split; [|split]; intros; rls_unfold; rewrite Hadm;
      try destruct st; destruct reads; reflexivity.
Qed.

Lemma unregistered_caller_is_not_admin_witness :
  no_registry_row Sample.db (signed_in "c0000000-0000-0000-0000-00000000000c") /\
  get_current_user_role Sample.db (signed_in "c0000000-0000-0000-0000-00000000000c")
  = None.
Proof.
  assert (H : no_registry_row Sample.db
                (signed_in "c0000000-0000-0000-0000-00000000000c")).
  { intros p [<-|[<-|[<-|[]]]]; discriminate. }
  split; [exact H|].
  exact (proj1 (unregistered_caller_is_not_admin Sample.db _ H)).
Defined.

(** ** The registry *)

(** A caller reads its own registry row, blocked or not. *)
Lemma own_profile_read reads db u (p : Profiles.row) :
  Profiles.id p = u ->
  rls ProfilesPolicies.catalog reads db (signed_in u) (Select p) = Granted.
Proof.
  intros <-. rls_unfold. cbn [auth_uid signed_in].
  now rewrite holds_eq_refl.
Qed.

(** The catalog of [profiles] lets a caller rewrite its own row to any row
    of the same [id]. *)
Lemma self_update_granted reads db u (old new : Profiles.row) :
  Profiles.id old = u -> Profiles.id new = u ->
  granted ProfilesPolicies.catalog reads db (signed_in u) (Update old new) = true.
Proof.
  intros Hold Hnew. rls_unfold. cbn [auth_uid signed_in].
  rewrite Hold, Hnew, holds_eq_refl. cbn [orb andb].
  destruct reads; reflexivity.
Qed.

(** C4.  When the caller's identity is the row's [id], before and after the
    update, the policy "Users can update their own profile" grants the
    update on its own and so does the whole catalog of [profiles]; no column
    is looked at besides [id].  In particular a caller may give its own row
    any [role] and any [is_blocked]. *)
Theorem self_update_any_columns reads db u (old new : Profiles.row) :
  Profiles.id old = u -> Profiles.id new = u ->
  granted [ProfilesPolicies.update_own] false db (signed_in u) (Update old new) = true /\
  granted ProfilesPolicies.catalog reads db (signed_in u) (Update old new) = true /\
  (forall r b,
      granted ProfilesPolicies.catalog reads db (signed_in u)
              (Update old (set_role_blocked r b old)) = true).
Proof.
  intros Hold Hnew. split; [|split].
  - rls_unfold. cbn [auth_uid signed_in].
    rewrite Hold, Hnew, holds_eq_refl. reflexivity.
  - now apply self_update_granted.
  - intros r b. apply self_update_granted; [exact Hold | exact Hold].
Qed.

Lemma self_update_any_columns_witness :
  (Profiles.id Sample.bob = Sample.bob_id /\
   Profiles.id (set_role_blocked admin (Some false) Sample.bob) = Sample.bob_id) /\
  granted ProfilesPolicies.catalog true Sample.db (signed_in Sample.bob_id)
           (Update Sample.bob (set_role_blocked admin (Some false) Sample.bob)) = true.
Proof.
  split; [split; reflexivity|].
  exact (proj1 (proj2 (self_update_any_columns true Sample.db Sample.bob_id
                         Sample.bob (set_role_blocked admin (Some false) Sample.bob)
                         eq_refl eq_refl))).
Defined.

(** A caller updates its own registry row, blocked or not, as long as the
    row keeps its [id]. *)
Lemma own_profile_update reads db (p p' : Profiles.row) :
  Profiles.id p' = Profiles.id p ->
  rls ProfilesPolicies.catalog reads db (signed_in (Profiles.id p)) (Update p p')
  = Granted.
Proof.
  intro Hid.
  pose proof (self_update_granted reads db (Profiles.id p) p p' eq_refl Hid) as H.
  unfold granted in H.
  destruct (rls ProfilesPolicies.catalog reads db (signed_in (Profiles.id p))
                (Update p p')); [reflexivity | discriminate H | discriminate H].
Qed.

(** What the policy "Blocked users cannot access data" does as one more
    permissive policy FOR ALL: a row whose [is_blocked] is FALSE passes it for
    every caller and every statement, whoever the caller is and whether or not
    the caller is blocked. *)
Lemma unblocked_row_open db s (p : Profiles.row) :
  Profiles.is_blocked p = Some false ->
  Sql.holds (ProfilesPolicies.blocked_qual db s p) = true.
Proof.
  intro Hb. unfold ProfilesPolicies.blocked_qual. rewrite Hb. cbn [Sql.not negb].
  now rewrite !holds_or.
Qed.

Lemma unblocked_row_read_by_all reads db s (p : Profiles.row) :
  Profiles.is_blocked p = Some false ->
  rls ProfilesPolicies.catalog reads db s (Select p) = Granted.
Proof.
  intro Hb. rls_unfold. rewrite (unblocked_row_open db s p Hb).
  now rewrite !orb_true_r.
Qed.

(** A row that is blocked, or whose [is_blocked] is NULL, is read only by
    its owner and by administrators. *)
Lemma blocked_row_read reads db s (p : Profiles.row) :
  Profiles.is_blocked p <> Some false ->
  (granted ProfilesPolicies.catalog reads db s (Select p) = true
   <-> auth_uid s = Some (Profiles.id p) \/ resolves_admin db s).
Proof.
  intro Hb. rls_unfold. unfold ProfilesPolicies.blocked_qual.
  autorewrite with rls.
  assert (Hnot : Sql.holds (Sql.not (Profiles.is_blocked p)) = false).
  { destruct (Profiles.is_blocked p) as [[|]|]; try reflexivity. now elim Hb. }
  rewrite Hnot. holds_cases; cbn; intuition congruence.
Qed.

(** C1 (the code departs from the claim).  On the sample data Bob is a
    blocked customer and Alice's row is not blocked.  Bob reads and updates
    his own row, as the claim says; but Bob also reads Alice's row, which the
    claim says is refused: "Blocked users cannot access data" is one more
    permissive policy, it tests [is_blocked] of the row and never the
    caller's. *)
Theorem blocked_caller_reads_other_row :
  Profiles.is_blocked Sample.bob = Some true /\
  get_current_user_role Sample.db (signed_in Sample.bob_id) = Some "customer" /\
  Profiles.id Sample.alice <> Sample.bob_id /\
  (forall reads,
      rls ProfilesPolicies.catalog reads Sample.db (signed_in Sample.bob_id)
          (Select Sample.bob) = Granted) /\
  (forall reads,
      rls ProfilesPolicies.catalog reads Sample.db (signed_in Sample.bob_id)
          (Select Sample.alice) = Granted).
Proof.
  split; [reflexivity|]. split; [reflexivity|]. split; [discriminate|].
  split; intro reads.
  - now apply own_profile_read.
  - now apply unblocked_row_read_by_all.
Qed.

(** C2 (the code departs from the claim).  An anonymous caller reads every
    category and every book, as the claim says; but it also reads Alice's
    registry row, which the claim says is refused: with a NULL [auth.uid()]
    the policy "Blocked users cannot access data" still holds of every row
    that is not blocked. *)
Theorem anonymous_reads :
  (forall reads db c,
      rls CategoriesPolicies.catalog reads db anonymous (Select c) = Granted) /\
  (forall reads db b,
      rls BooksPolicies.catalog reads db anonymous (Select b) = Granted) /\
  get_current_user_role Sample.db anonymous = None /\
  (forall reads,
      rls ProfilesPolicies.catalog reads Sample.db anonymous (Select Sample.alice)
      = Granted).
Proof.
  split; [intros; apply catalog_reads_open|].
  split; [intros; apply catalog_reads_open|].
  split; [reflexivity|].
  intro reads. now apply unblocked_row_read_by_all.
Qed.

(** ** Registration *)

Lemma filter_none {A : Type} (f : A -> bool) (l : list A) :
  existsb f l = false -> filter f l = [].
Proof.
  induction l as [|x l IH]; simpl; [reflexivity|].
  destruct (f x); simpl; [discriminate | exact IH].
Qed.

(** A firing that goes through appends one row, for a key that had none. *)
Lemma handle_new_user_ok now new db db1 :
  handle_new_user now new db = inr db1 ->
  has_profile (AuthUsers.id new) db = false /\
  exists p, Profiles.id p = AuthUsers.id new /\
            Profiles.role p = customer /\
            Profiles.is_blocked p = Some false /\
            db1 = mkDb (profiles db ++ [p]) (orders db).
Proof.
  unfold handle_new_user, insert_profile.
  destruct (AuthUsers.email new) as [e|]; [|discriminate].
  destruct (has_profile (AuthUsers.id new) db) eqn:E; [discriminate|].
  intro H. injection H as <-. split; [reflexivity|].
  eexists (new_profile now (AuthUsers.id new) e _). repeat split.
Qed.





(** Deleting an identity keeps the foreign key: its registry row goes with
    it. *)
Lemma delete_identity_keeps_fk k w :
  registry_fk w -> registry_fk (delete_identity k w).
Proof.
  unfold registry_fk, delete_identity, has_identity. cbn [identities data profiles].
  intros Hfk p Hp. apply filter_In in Hp. destruct Hp as [Hp Hk].
  specialize (Hfk p Hp). apply existsb_exists in Hfk.
  destruct Hfk as (u & Hu & Hid). apply String.eqb_eq in Hid.
  apply existsb_exists. exists u. split.
  - apply filter_In. split; [exact Hu | now rewrite Hid].
  - now apply String.eqb_eq.
Qed.





(** * Further properties of the policies *)

(** ** Orders and order items *)

(** X1.  An order is read by its owner and by administrators, and by nobody
    else. *)
Theorem order_read_iff_owner_or_admin reads db s (o : Orders.row) :
  granted OrdersPolicies.catalog reads db s (Select o) = true
  <-> auth_uid s = Some (Orders.user_id o) \/ resolves_admin db s.
Proof. rls_solve. Qed.

(** X2.  No policy of [orders] speaks of DELETE: nobody deletes an order through
    the policies, neither its owner nor an administrator. *)
Theorem order_delete_refused reads db s (o : Orders.row) :
  rls OrdersPolicies.catalog reads db s (Delete o) = Hidden.
Proof. rls_unfold. reflexivity. Qed.

(** X3.  No policy of [order_items] speaks of UPDATE or DELETE: once inserted, an
    order item is changed and removed by nobody through the policies. *)
Theorem order_item_frozen reads db s :
  (forall old new,
      rls OrderItemsPolicies.catalog reads db s (Update old new) = Hidden) /\
  (forall old,
      rls OrderItemsPolicies.catalog reads db s (Delete old) = Hidden).
Proof. split; intros; rls_unfold; reflexivity. Qed.

(** X4.  With [o] the order an item refers to, the item is read by the owner of
    [o] and by administrators, and by nobody else. *)
Theorem order_item_read_iff reads db s (it : OrderItems.row) (o : Orders.row) :
  orders_pk db ->
  In o (orders db) ->
  Orders.id o = OrderItems.order_id it ->
  (granted OrderItemsPolicies.catalog reads db s (Select it) = true
   <-> auth_uid s = Some (Orders.user_id o) \/ resolves_admin db s).
Proof.
  intros Hpk Hin Hid.
  pose proof (own_order_exists_iff db s it o Hpk Hin Hid) as Hown.
  rewrite <- Hown, <- is_admin_iff. rls_unfold.
  destruct (Sql.holds (OrderItemsPolicies.own_order_exists db s it)),
    (Sql.holds (is_admin db s)); cbn; intuition congruence.
Qed.

Lemma order_item_read_iff_witness :
  (orders_pk Sample.db /\
   In Sample.alice_order (orders Sample.db) /\
   Orders.id Sample.alice_order = OrderItems.order_id Sample.alice_item) /\
  (granted OrderItemsPolicies.catalog true Sample.db (signed_in Sample.alice_id)
           (Select Sample.alice_item) = true
   <-> auth_uid (signed_in Sample.alice_id) = Some (Orders.user_id Sample.alice_order)
       \/ resolves_admin Sample.db (signed_in Sample.alice_id)).
Proof.
  assert (H1 : orders_pk Sample.db).
  { unfold orders_pk. simpl. constructor; [intros [] | constructor]. }
  assert (H2 : In Sample.alice_order (orders Sample.db)) by (simpl; now left).
  assert (H3 : Orders.id Sample.alice_order = OrderItems.order_id Sample.alice_item)
    by reflexivity.
  split; [now repeat split |].
  exact (order_item_read_iff true Sample.db (signed_in Sample.alice_id)
                             Sample.alice_item Sample.alice_order H1 H2 H3).
Defined.

(** ** Reviews *)

Ltac reviews_unfold :=
  unfold ReviewsPolicies.catalog, ReviewsPolicies.anyone_view,
    ReviewsPolicies.manage_own.

(** X5.  Every caller reads every review.  A review is inserted and deleted only
    by the caller it names, and updated only when it names the caller before
    and after; the resolved role plays no part, so an administrator cannot
    remove another user's review. *)
Theorem review_access reads db s :
  (forall r, rls ReviewsPolicies.catalog reads db s (Select r) = Granted) /\
  (forall r, granted ReviewsPolicies.catalog reads db s (Insert r) = true
             <-> auth_uid s = Some (Reviews.user_id r)) /\
  (forall old new,
      granted ReviewsPolicies.catalog reads db s (Update old new) = true
      <-> auth_uid s = Some (Reviews.user_id old) /\
          auth_uid s = Some (Reviews.user_id new)) /\
  (forall r, granted ReviewsPolicies.catalog reads db s (Delete r) = true
             <-> auth_uid s = Some (Reviews.user_id r)).
Proof.
  split; [|split; [|split]]; intros; reviews_unfold; try solve [rls_solve].
  rls_unfold. reflexivity.
Qed.

(** ** The registry, statement by statement *)

(** What the four policies of [profiles] come to for one row: the row is not
    blocked, or it is the caller's, or the caller resolves to admin. *)
Definition profile_open (db : database) (s : session) (p : Profiles.row) : Prop :=
  Profiles.is_blocked p = Some false \/
  auth_uid s = Some (Profiles.id p) \/
  resolves_admin db s.

Lemma blocked_qual_iff db s (p : Profiles.row) :
  Sql.holds (ProfilesPolicies.blocked_qual db s p) = true <-> profile_open db s p.
Proof.
  unfold ProfilesPolicies.blocked_qual, profile_open.
  rewrite !holds_or, !orb_true_iff, is_admin_iff, holds_eq_iff.
  destruct (Profiles.is_blocked p) as [[|]|]; cbn; intuition congruence.
Qed.

(** X6.  Every statement on [profiles] is granted exactly when each row it
    touches, old or new, is open in that sense.  So a row that is not
    blocked is read, rewritten and deleted by any caller, signed in or not;
    a blocked row only by its owner and by administrators; and nobody but
    these two can turn a row into a blocked one. *)
Theorem profile_access reads db s :
  (forall p, granted ProfilesPolicies.catalog reads db s (Select p) = true
             <-> profile_open db s p) /\
  (forall p, granted ProfilesPolicies.catalog reads db s (Insert p) = true
             <-> profile_open db s p) /\
  (forall old new,
      granted ProfilesPolicies.catalog reads db s (Update old new) = true
      <-> profile_open db s old /\ profile_open db s new) /\
  (forall p, granted ProfilesPolicies.catalog reads db s (Delete p) = true
             <-> profile_open db s p).
Proof.
  split; [|split; [|split]]; intros;
    rewrite <- ?blocked_qual_iff; rls_unfold;
    unfold ProfilesPolicies.blocked_qual; autorewrite with rls;
    repeat match goal with
           | |- context [Sql.holds ?a] => destruct (Sql.holds a)
           end;
    destruct reads; cbn; intuition congruence.
Qed.

(** * The migrations' functions *)

(** ** The guarded CREATE POLICY *)

Lemma named_after_append {Row : Type} (p : policy Row) (cat : list (policy Row)) :
  existsb (fun q => String.eqb (policyname q) (policyname p)) (cat ++ [p]) = true.
Proof.
  rewrite existsb_app. cbn. now rewrite String.eqb_refl, !orb_true_r.
Qed.

(** X7.  Running the guarded migration again changes nothing: the second run
    finds the policy and skips the CREATE POLICY, which would raise on a name
    already taken. *)
Theorem create_policy_if_absent_again {Row : Type}
        (p : policy Row) (cat : list (policy Row)) :
  create_policy_if_absent p (create_policy_if_absent p cat)
  = create_policy_if_absent p cat.
Proof.
  unfold create_policy_if_absent at 2 3.
  destruct (existsb (fun q => String.eqb (policyname q) (policyname p)) cat) eqn:E.
  - unfold create_policy_if_absent. now rewrite E.
  - unfold create_policy_if_absent. now rewrite named_after_append.
Qed.

(** X8.  The guard keeps policy names unique on the table. *)
Theorem create_policy_if_absent_names {Row : Type}
        (p : policy Row) (cat : list (policy Row)) :
  NoDup (map (@policyname Row) cat) ->
  NoDup (map (@policyname Row) (create_policy_if_absent p cat)).
Proof.
  intro Hnd. unfold create_policy_if_absent.
  destruct (existsb (fun q => String.eqb (policyname q) (policyname p)) cat) eqn:E;
    [exact Hnd|].
  rewrite map_app. cbn [map].
  apply NoDup_app; [exact Hnd | constructor; [intros [] | constructor] |].
  intros n Hin [<-|[]].
  apply in_map_iff in Hin. destruct Hin as (q & Hq & Hin).
  assert (existsb (fun q => String.eqb (policyname q) (policyname p)) cat = true).
  { apply existsb_exists. exists q. split; [exact Hin|]. now apply String.eqb_eq. }
  congruence.
Qed.

Lemma create_policy_if_absent_names_witness :
  NoDup (map (@policyname Profiles.row)
             [ProfilesPolicies.view_own; ProfilesPolicies.update_own;
              ProfilesPolicies.admins_view_all]) /\
  NoDup (map (@policyname Profiles.row)
             (create_policy_if_absent ProfilesPolicies.blocked
                [ProfilesPolicies.view_own; ProfilesPolicies.update_own;
                 ProfilesPolicies.admins_view_all])).
Proof.
  assert (H : NoDup (map (@policyname Profiles.row)
                         [ProfilesPolicies.view_own; ProfilesPolicies.update_own;
                          ProfilesPolicies.admins_view_all])).
  { cbn. repeat constructor; cbn; intuition discriminate. }
  split; [exact H|].
  exact (create_policy_if_absent_names ProfilesPolicies.blocked _ H).
Defined.

(** ** Registration *)

Lemma not_has_profile_filter k db :
  has_profile k db = false ->
  filter (fun p => Sql.holds (Sql.eq (Some (Profiles.id p)) (Some k))) (profiles db) = [].
Proof.
  unfold has_profile. intro H.
  rewrite (filter_ext _ (fun p => String.eqb (Profiles.id p) k)).
  - apply filter_none. exact H.
  - intro p. cbn. now destruct (String.eqb (Profiles.id p) k).
Qed.

Lemma not_has_profile_notin k db :
  has_profile k db = false -> ~ In k (map Profiles.id (profiles db)).
Proof.
  unfold has_profile. intros H Hin.
  apply in_map_iff in Hin. destruct Hin as (p & <- & Hin).
  assert (existsb (fun q => String.eqb (Profiles.id q) (Profiles.id p)) (profiles db) = true).
  { apply existsb_exists. exists p. split; [exact Hin | apply String.eqb_refl]. }
  congruence.
Qed.

Lemma pk_after_append db (p : Profiles.row) :
  profiles_pk db ->
  has_profile (Profiles.id p) db = false ->
  profiles_pk (mkDb (profiles db ++ [p]) (orders db)).
Proof.
  unfold profiles_pk. cbn [profiles]. intros Hpk Hfresh.
  rewrite map_app. cbn [map].
  apply NoDup_app; [exact Hpk | constructor; [intros [] | constructor] |].
  intros k Hin [<-|[]]. now apply (not_has_profile_notin _ _ Hfresh).
Qed.

(** X10.  A firing that goes through keeps the primary key of [profiles], keeps
    every row that was there, in place, and does not touch [orders]. *)
Theorem handle_new_user_keeps_registry now new db db1 :
  profiles_pk db ->
  handle_new_user now new db = inr db1 ->
  profiles_pk db1 /\
  firstn (List.length (profiles db)) (profiles db1) = profiles db /\
  List.length (profiles db1) = S (List.length (profiles db)) /\
  orders db1 = orders db.
Proof.
  intros Hpk H.
  pose proof (handle_new_user_ok now new db db1 H)
    as (Hfresh & p & Hid & _ & _ & ->).
  cbn [profiles orders]. split; [|split; [|split]].
  - apply pk_after_append; [exact Hpk | now rewrite Hid].
  - rewrite firstn_app, Nat.sub_diag, firstn_all. cbn. apply app_nil_r.
  - rewrite length_app. cbn. lia.
  - reflexivity.
Qed.

Lemma sample_db_pk : profiles_pk Sample.db.
Proof.
  unfold profiles_pk. cbn. repeat constructor; cbn; intuition discriminate.
Qed.

Lemma handle_new_user_keeps_registry_witness :
  (profiles_pk Sample.db /\
   handle_new_user 40 Sample.carol Sample.db = inr Shop.db_with_carol) /\
  (profiles_pk Shop.db_with_carol /\
   firstn (List.length (profiles Sample.db)) (profiles Shop.db_with_carol)
   = profiles Sample.db /\
   List.length (profiles Shop.db_with_carol) = S (List.length (profiles Sample.db)) /\
   orders Shop.db_with_carol = orders Sample.db).
Proof.
  split; [split; [exact sample_db_pk | reflexivity]|].
  exact (handle_new_user_keeps_registry 40%Z Sample.carol Sample.db
           Shop.db_with_carol sample_db_pk eq_refl).
Defined.

(** The resolver reads one more row at the end of the table only when no
    earlier row answers. *)
Lemma role_after_append db (p : Profiles.row) s :
  get_current_user_role (mkDb (profiles db ++ [p]) (orders db)) s =
  match get_current_user_role db s with
  | Some r => Some r
  | None => if Sql.holds (Sql.eq (Some (Profiles.id p)) (auth_uid s))
            then Some (role_text (Profiles.role p)) else None
  end.
Proof.
  unfold get_current_user_role. cbn [profiles].
  rewrite filter_app, map_app. cbn [filter].
  destruct (map _ (filter _ (profiles db))) as [|r rs]; cbn [app hd_error].
  - destruct (Sql.holds (Sql.eq (Some (Profiles.id p)) (auth_uid s))); reflexivity.
  - reflexivity.
Qed.

Lemma role_after_registration now new db db1 :
  handle_new_user now new db = inr db1 ->
  get_current_user_role db1 (signed_in (AuthUsers.id new)) = Some "customer" /\
  (forall s, auth_uid s <> Some (AuthUsers.id new) ->
             get_current_user_role db1 s = get_current_user_role db s).
Proof.
  intro H.
  pose proof (handle_new_user_ok now new db db1 H)
    as (Hfresh & p & Hid & Hrole & _ & ->).
  split.
  - rewrite role_after_append. unfold get_current_user_role.
    cbn [auth_uid signed_in].
    rewrite (not_has_profile_filter _ _ Hfresh). cbn [map hd_error].
    rewrite Hid, holds_eq_refl, Hrole. reflexivity.
  - intros s Hs. rewrite role_after_append.
    destruct (get_current_user_role db s); [reflexivity|].
    rewrite holds_eq_sym, Hid.
    apply holds_eq_false_iff in Hs. now rewrite Hs.
Qed.

(** X11.  A newly registered identity resolves to 'customer', so it is no
    administrator; and the registration changes the resolved role of no
    other caller. *)
Theorem registered_resolves_customer now new db db1 :
  handle_new_user now new db = inr db1 ->
  get_current_user_role db1 (signed_in (AuthUsers.id new)) = Some "customer" /\
  ~ resolves_admin db1 (signed_in (AuthUsers.id new)) /\
  (forall s, auth_uid s <> Some (AuthUsers.id new) ->
             get_current_user_role db1 s = get_current_user_role db s).
Proof.
  intro H. destruct (role_after_registration now new db db1 H) as [Hme Hothers].
  split; [exact Hme|]. split; [|exact Hothers].
  unfold resolves_admin. rewrite Hme. discriminate.
Qed.

Lemma registered_resolves_customer_witness :
  handle_new_user 40 Sample.carol Sample.empty = inr Sample.with_carol /\
  get_current_user_role Sample.with_carol (signed_in (AuthUsers.id Sample.carol))
  = Some "customer".
Proof.
  split; [reflexivity|].
  exact (proj1 (registered_resolves_customer 40 Sample.carol Sample.empty
                  Sample.with_carol eq_refl)).
Defined.

(** X12.  The row a registration writes.  Its [full_name] is never NULL: it is the
    text under "full_name" in the sign-up metadata, and the empty text when
    the metadata is NULL or has no such field.  The e-mail is the identity's;
    the row starts as an unblocked customer with no phone and no address. *)
Theorem registered_row now new db db1 :
  handle_new_user now new db = inr db1 ->
  exists p,
    profiles db1 = (profiles db ++ [p])%list /\
    Profiles.id p = AuthUsers.id new /\
    Some (Profiles.email p) = AuthUsers.email new /\
    Profiles.full_name p <> None /\
    (json_text (AuthUsers.raw_user_meta_data new) "full_name" = None ->
     Profiles.full_name p = Some "") /\
    (forall n, json_text (AuthUsers.raw_user_meta_data new) "full_name" = Some n ->
               Profiles.full_name p = Some n) /\
    Profiles.phone p = None /\ Profiles.address p = None /\
    Profiles.role p = customer /\ Profiles.is_blocked p = Some false.
Proof.
  unfold handle_new_user, insert_profile.
  destruct (AuthUsers.email new) as [e|]; [|discriminate].
  destruct (has_profile (AuthUsers.id new) db); [discriminate|].
  intro H. injection H as <-.
  eexists. split; [reflexivity|]. cbn.
  repeat split; try discriminate.
  - intros ->. reflexivity.
  - intros n ->. reflexivity.
Qed.

Lemma registered_row_witness :
  handle_new_user 40 Sample.carol Sample.empty = inr Sample.with_carol /\
  exists p, profiles Sample.with_carol = (profiles Sample.empty ++ [p])%list /\
            Profiles.full_name p = Some "Carol".
Proof.
  split; [reflexivity|].
  destruct (registered_row 40 Sample.carol Sample.empty Sample.with_carol eq_refl)
    as (p & Hp & _ & _ & _ & _ & Hn & _).
  exists p. split; [exact Hp | apply Hn; reflexivity].
Defined.

(** ** The admin seed *)

Lemma count_one_under_pk k (l : list Profiles.row) :
  NoDup (map Profiles.id l) ->
  existsb (fun p => String.eqb (Profiles.id p) k) l = true ->
  List.length (filter (fun p => String.eqb (Profiles.id p) k) l) = 1.
Proof.
  induction l as [|p l IH]; cbn [map existsb filter]; [discriminate|].
  intros Hnd Hex. inversion Hnd as [|? ? Hnotin Hnd']; subst.
  destruct (String.eqb_spec (Profiles.id p) k) as [E|_].
  - cbn [List.length]. f_equal.
    rewrite filter_none; [reflexivity|].
    destruct (existsb (fun q => String.eqb (Profiles.id q) k) l) eqn:Hl;
      [|reflexivity].
    exfalso. apply Hnotin. apply existsb_exists in Hl.
    destruct Hl as (q & Hq & Hqk). apply String.eqb_eq in Hqk.
    rewrite E, <- Hqk. now apply in_map.
  - cbn [orb] in Hex. now apply IH.
Qed.

Lemma create_admin_user_cases now users db db1 :
  create_admin_user now users db = inr db1 ->
  (has_profile admin_id db = true /\ db1 = db) \/
  (has_profile admin_id db = false /\
   db1 = mkDb (profiles db ++ [admin_profile now]) (orders db)).
Proof.
  unfold create_admin_user.
  destruct (has_profile admin_id db).
  - intro H. injection H as <-. now left.
  - destruct (existsb _ users); [|discriminate].
    intro H. injection H as <-. now right.
Qed.

(** X13.  Calling [create_admin_user] again, at any later time and whatever
    [auth.users] holds then, returns without an error and leaves the
    registry as the first call left it. *)
Theorem create_admin_user_again now users db db1 now' users' :
  create_admin_user now users db = inr db1 ->
  create_admin_user now' users' db1 = inr db1.
Proof.
  intro H. apply create_admin_user_cases in H.
  destruct H as [[Hhas ->]|[Hno ->]]; unfold create_admin_user.
  - now rewrite Hhas.
  - unfold has_profile. cbn [profiles].
    rewrite existsb_app. cbn. now rewrite orb_true_r.
Qed.

Lemma create_admin_user_again_witness :
  create_admin_user 5 [AuthUsers.mk admin_id (Some "admin@admin.com") None]
                    Sample.empty
  = inr (mkDb [admin_profile 5] []) /\
  create_admin_user 6 [] (mkDb [admin_profile 5] []) = inr (mkDb [admin_profile 5] []).
Proof.
  split; [reflexivity|].
  exact (create_admin_user_again 5
           [AuthUsers.mk admin_id (Some "admin@admin.com") None]
           Sample.empty (mkDb [admin_profile 5] []) 6 [] eq_refl).
Defined.

(** X14.  A call that returns keeps the primary key of [profiles], keeps every
    row that was there, in place, leaves [orders] alone, and leaves exactly
    one row under the admin key. *)
Theorem create_admin_user_keeps_registry now users db db1 :
  profiles_pk db ->
  create_admin_user now users db = inr db1 ->
  profiles_pk db1 /\
  firstn (List.length (profiles db)) (profiles db1) = profiles db /\
  orders db1 = orders db /\
  profile_count admin_id db1 = 1.
Proof.
  intros Hpk H. apply create_admin_user_cases in H.
  destruct H as [[Hhas ->]|[Hno ->]].
  - split; [exact Hpk|]. split; [apply firstn_all|]. split; [reflexivity|].
    unfold profile_count. now apply count_one_under_pk.
  - cbn [profiles orders]. split; [|split; [|split]].
    + now apply pk_after_append.
    + rewrite firstn_app, Nat.sub_diag, firstn_all. cbn. apply app_nil_r.
    + reflexivity.
    + unfold profile_count. cbn [profiles]. rewrite filter_app.
      unfold has_profile in Hno. rewrite (filter_none _ _ Hno). reflexivity.
Qed.

Lemma shop_db_unseeded_pk : profiles_pk Shop.db_unseeded.
Proof.
  unfold profiles_pk. cbn. repeat constructor; cbn; intuition discriminate.
Qed.

(** Both branches: on the sample registry the admin key is taken and the
    call changes nothing; on the registry without it the row goes in after
    Alice's and Bob's. *)
Lemma create_admin_user_keeps_registry_witness :
  ((profiles_pk Sample.db /\
    create_admin_user 50 [] Sample.db = inr Sample.db) /\
   (profiles_pk Sample.db /\
    firstn (List.length (profiles Sample.db)) (profiles Sample.db)
    = profiles Sample.db /\
    orders Sample.db = orders Sample.db /\
    profile_count admin_id Sample.db = 1)) /\
  ((profiles_pk Shop.db_unseeded /\
    create_admin_user 50 [Shop.identity_of Sample.root] Shop.db_unseeded
    = inr (mkDb [Sample.alice; Sample.bob; admin_profile 50] [Sample.alice_order])) /\
   (profiles_pk (mkDb [Sample.alice; Sample.bob; admin_profile 50]
                      [Sample.alice_order]) /\
    firstn (List.length (profiles Shop.db_unseeded))
           [Sample.alice; Sample.bob; admin_profile 50]
    = profiles Shop.db_unseeded /\
    [Sample.alice_order] = orders Shop.db_unseeded /\
    profile_count admin_id (mkDb [Sample.alice; Sample.bob; admin_profile 50]
                                 [Sample.alice_order]) = 1)).
Proof.
  split.
  - split; [split; [exact sample_db_pk | reflexivity]|].
    exact (create_admin_user_keeps_registry 50%Z [] Sample.db Sample.db
             sample_db_pk eq_refl).
  - split; [split; [exact shop_db_unseeded_pk | reflexivity]|].
    exact (create_admin_user_keeps_registry 50%Z [Shop.identity_of Sample.root]
             Shop.db_unseeded
             (mkDb [Sample.alice; Sample.bob; admin_profile 50] [Sample.alice_order])
             shop_db_unseeded_pk eq_refl).
Defined.

(** X15.  The seed never promotes.  After a call that returns, the admin key
    resolves to admin exactly when it had no row before the call or resolved
    to admin already: on a conflict the row found is left with the role it
    has. *)
Theorem create_admin_user_never_promotes now users db db1 :
  create_admin_user now users db = inr db1 ->
  (resolves_admin db1 (signed_in admin_id)
   <-> has_profile admin_id db = false \/ resolves_admin db (signed_in admin_id)).
Proof.
  intro H. apply create_admin_user_cases in H.
  destruct H as [[Hhas ->]|[Hno ->]].
  - rewrite Hhas. intuition discriminate.
  - unfold resolves_admin. rewrite role_after_append.
    unfold get_current_user_role at 1. cbn [auth_uid signed_in].
    rewrite (not_has_profile_filter _ _ Hno). cbn [map hd_error].
    cbn [admin_profile Profiles.id Profiles.role].
    rewrite holds_eq_refl. cbn. intuition.
Qed.

Lemma create_admin_user_never_promotes_witness :
  create_admin_user 50 [] (mkDb [new_profile 7 admin_id "admin@admin.com" (Some "")] [])
  = inr (mkDb [new_profile 7 admin_id "admin@admin.com" (Some "")] []) /\
  ~ resolves_admin (mkDb [new_profile 7 admin_id "admin@admin.com" (Some "")] [])
      (signed_in admin_id).
Proof.
  split; [reflexivity|].
  intro Hadm.
  apply (create_admin_user_never_promotes 50 []
           (mkDb [new_profile 7 admin_id "admin@admin.com" (Some "")] [])
           (mkDb [new_profile 7 admin_id "admin@admin.com" (Some "")] [])
           eq_refl) in Hadm.
  destruct Hadm as [H|H]; discriminate H.
Defined.

(** X16.  The documented way to the admin account -- create the identity, then
    run the seed -- does not make an administrator: the trigger has written
    a customer row for the key by then, and the seed leaves it as it is. *)
Theorem seed_after_signup_stays_customer now new db db1 now' users :
  handle_new_user now new db = inr db1 ->
  AuthUsers.id new = admin_id ->
  create_admin_user now' users db1 = inr db1 /\
  get_current_user_role db1 (signed_in admin_id) = Some "customer".
Proof.
  intros H Hid.
  destruct (role_after_registration now new db db1 H) as [Hme _].
  rewrite Hid in Hme. split; [|exact Hme].
  pose proof (handle_new_user_ok now new db db1 H)
    as (_ & p & Hp & _ & _ & ->).
  unfold create_admin_user, has_profile. cbn [profiles].
  rewrite existsb_app. cbn [existsb].
  now rewrite Hp, Hid, String.eqb_refl, !orb_true_r.
Qed.

Lemma seed_after_signup_stays_customer_witness :
  (handle_new_user 7 (AuthUsers.mk admin_id (Some "admin@admin.com") None) Sample.empty
   = inr (mkDb [new_profile 7 admin_id "admin@admin.com" (Some "")] []) /\
   AuthUsers.id (AuthUsers.mk admin_id (Some "admin@admin.com") None) = admin_id) /\
  get_current_user_role (mkDb [new_profile 7 admin_id "admin@admin.com" (Some "")] [])
                        (signed_in admin_id) = Some "customer".
Proof.
  split; [split; reflexivity|].
  exact (proj2 (seed_after_signup_stays_customer 7
                  (AuthUsers.mk admin_id (Some "admin@admin.com") None)
                  Sample.empty
                  (mkDb [new_profile 7 admin_id "admin@admin.com" (Some "")] [])
                  8 [AuthUsers.mk admin_id (Some "admin@admin.com") None]
                  eq_refl eq_refl)).
Defined.

(** * The pages' statements *)

(** ** Lists *)

Lemma existsb_never {A : Type} (f : A -> bool) (l : list A) :
  (forall x, In x l -> f x = false) -> existsb f l = false.
Proof.
  induction l as [|x l IH]; cbn; [reflexivity|]. intro H.
  rewrite (H x (or_introl eq_refl)). apply IH. intros y Hy. apply H. now right.
Qed.

Lemma filter_map_spared {A : Type} (P : A -> bool) (f : A -> A) (l : list A) :
  (forall x, In x l -> P (f x) = P x) ->
  (forall x, In x l -> P x = true -> f x = x) ->
  filter P (map f l) = filter P l.
Proof.
  induction l as [|x l IH]; cbn [map filter]; [reflexivity|].
  intros H1 H2. rewrite (H1 x (or_introl eq_refl)).
  rewrite IH; [| intros y Hy; apply H1; now right
               | intros y Hy; apply H2; now right].
  destruct (P x) eqn:E; [|reflexivity].
  now rewrite (H2 x (or_introl eq_refl) E).
Qed.

Lemma filter_filter_spared {A : Type} (P Q : A -> bool) (l : list A) :
  (forall x, In x l -> P x = true -> Q x = true) ->
  filter P (filter Q l) = filter P l.
Proof.
  induction l as [|x l IH]; cbn [filter]; [reflexivity|]. intro H.
  assert (IH' : filter P (filter Q l) = filter P l).
  { apply IH. intros y Hy. apply H. now right. }
  destruct (Q x) eqn:EQ; cbn [filter]; rewrite IH'; [reflexivity|].
  destruct (P x) eqn:EP; [|reflexivity].
  rewrite (H x (or_introl eq_refl) EP) in EQ. discriminate EQ.
Qed.

(** ** What the cart policy comes to *)

Definition cart_own (s : session) (r : CartItems.row) : bool :=
  Sql.holds (Sql.eq (auth_uid s) (Some (CartItems.user_id r))).

Lemma cart_update_verdict reads db s (r : CartItems.row) q :
  rls CartItemsPolicies.catalog reads db s (Update r (set_quantity q r))
  = if cart_own s r then Granted else Hidden.
Proof.
  unfold cart_own. rls_unfold. cbn [set_quantity CartItems.user_id].
  destruct (Sql.holds (Sql.eq (auth_uid s) (Some (CartItems.user_id r))));
    destruct reads; reflexivity.
Qed.

Lemma cart_delete_granted reads db s (r : CartItems.row) :
  granted CartItemsPolicies.catalog reads db s (Delete r) = cart_own s r.
Proof.
  unfold cart_own. rls_unfold.
  destruct (Sql.holds (Sql.eq (auth_uid s) (Some (CartItems.user_id r))));
    destruct reads; reflexivity.
Qed.

(** The UPDATE that sets a quantity, with the policies worked out: it
    rewrites the rows of that key that are the caller's. *)
Lemma update_quantity_eq db s itemId q (cart : list CartItems.row) :
  update_quantity db s itemId q cart =
  if int4_ok q
  then map (fun r => if String.eqb (CartItems.id r) itemId && cart_own s r
                     then set_quantity q r else r) cart
  else cart.
Proof.
  unfold update_quantity, run_update. destruct (int4_ok q); [|reflexivity].
  rewrite existsb_never.
  - apply map_ext. intro r. unfold granted. rewrite cart_update_verdict.
    now destruct (cart_own s r).
  - intros r _. rewrite cart_update_verdict.
    destruct (cart_own s r); cbn; apply andb_false_r.
Qed.

Lemma removeItem_eq db s itemId (cart : list CartItems.row) :
  removeItem db s itemId cart =
  filter (fun r => negb (String.eqb (CartItems.id r) itemId && cart_own s r)) cart.
Proof.
  unfold removeItem, run_delete. apply filter_ext. intro r.
  now rewrite cart_delete_granted.
Qed.

Lemma clear_cart_eq db s u (cart : list CartItems.row) :
  clear_cart db s u cart =
  filter (fun r => negb (String.eqb (CartItems.user_id r) u && cart_own s r)) cart.
Proof.
  unfold clear_cart, run_delete. apply filter_ext. intro r.
  now rewrite cart_delete_granted.
Qed.

Lemma cart_own_signed_in u (r : CartItems.row) :
  cart_own (signed_in u) r = String.eqb (CartItems.user_id r) u.
Proof.
  unfold cart_own. cbn. rewrite String.eqb_sym.
  now destruct (String.eqb (CartItems.user_id r) u).
Qed.

Lemma cart_own_other s v (r : CartItems.row) :
  auth_uid s <> Some v -> String.eqb (CartItems.user_id r) v = true ->
  cart_own s r = false.
Proof.
  intros Hs Hv. apply String.eqb_eq in Hv. subst v.
  unfold cart_own. now apply holds_eq_false_iff.
Qed.

Lemma cart_select_eq db u b (cart : list CartItems.row) :
  run_select CartItemsPolicies.catalog db (signed_in u)
             (fun r => String.eqb (CartItems.user_id r) u
                       && String.eqb (CartItems.book_id r) b) cart
  = filter (fun r => String.eqb (CartItems.user_id r) u
                     && String.eqb (CartItems.book_id r) b) cart.
Proof.
  unfold run_select. apply filter_ext. intro r. rls_unfold.
  fold (cart_own (signed_in u) r). rewrite cart_own_signed_in.
  destruct (String.eqb (CartItems.user_id r) u),
    (String.eqb (CartItems.book_id r) b); reflexivity.
Qed.

Lemma cart_insert_granted reads db u b k q now :
  granted CartItemsPolicies.catalog reads db (signed_in u)
          (Insert (CartItems.mk k u b q now)) = true.
Proof.
  rls_unfold. cbn [CartItems.user_id auth_uid signed_in].
  rewrite holds_eq_refl. destruct reads; reflexivity.
Qed.

(** The add-to-cart button, with the policies worked out. *)
Lemma handleAddToCart_eq db books u b fresh now (cart : list CartItems.row) :
  handleAddToCart db books (Some u) b fresh now cart =
  match single (filter (fun r => String.eqb (CartItems.user_id r) u
                                 && String.eqb (CartItems.book_id r) b) cart) with
  | Some existing =>
      update_quantity db (signed_in u) (CartItems.id existing)
                      (CartItems.quantity existing + 1) cart
  | None =>
      if negb (existsb (fun r => String.eqb (CartItems.id r) fresh) cart)
         && negb (in_cart u b cart)
         && existsb (String.eqb b) books
      then cart ++ [CartItems.mk fresh u b 1 now]
      else cart
  end%list.
Proof.
  unfold handleAddToCart. cbv zeta. rewrite cart_select_eq.
  destruct (single _); [reflexivity|].
  now rewrite cart_insert_granted.
Qed.

Lemma single_in {A : Type} (l : list A) (x : A) : single l = Some x -> l = [x].
Proof.
  destruct l as [|y [|z l]]; cbn; intro H; try discriminate H.
  now injection H as ->.
Qed.

(** ** Carts of other users *)

(** X19.  Whatever the caller sends through the cart page, the add-to-cart button
    or the checkout, the cart rows of every other user stay as they are. *)
Theorem cart_statements_spare_others db s (cart : list CartItems.row) (v : uuid) :
  auth_uid s <> Some v ->
  (forall itemId q,
      filter (fun r => String.eqb (CartItems.user_id r) v)
             (updateQuantity db s itemId q cart)
      = filter (fun r => String.eqb (CartItems.user_id r) v) cart) /\
  (forall itemId,
      filter (fun r => String.eqb (CartItems.user_id r) v) (removeItem db s itemId cart)
      = filter (fun r => String.eqb (CartItems.user_id r) v) cart) /\
  (forall u,
      filter (fun r => String.eqb (CartItems.user_id r) v) (clear_cart db s u cart)
      = filter (fun r => String.eqb (CartItems.user_id r) v) cart) /\
  (forall books b fresh now,
      filter (fun r => String.eqb (CartItems.user_id r) v)
             (handleAddToCart db books (auth_uid s) b fresh now cart)
      = filter (fun r => String.eqb (CartItems.user_id r) v) cart).
Proof.
  intro Hs.
  assert (Hupd : forall s', auth_uid s' <> Some v -> forall itemId q,
             filter (fun r => String.eqb (CartItems.user_id r) v)
                    (update_quantity db s' itemId q cart)
             = filter (fun r => String.eqb (CartItems.user_id r) v) cart).
  { intros s' Hs' itemId q. rewrite update_quantity_eq.
    destruct (int4_ok q); [|reflexivity].
    apply filter_map_spared.
    - intros r _. now destruct (_ && _).
    - intros r _ Hv. rewrite (cart_own_other s' v r Hs' Hv).
      now rewrite andb_false_r. }
  split; [|split; [|split]].
  - intros itemId q. unfold updateQuantity.
    destruct (q <? 1)%Z; [reflexivity | now apply Hupd].
  - intro itemId. rewrite removeItem_eq. apply filter_filter_spared.
    intros r _ Hv. rewrite (cart_own_other s v r Hs Hv).
    now rewrite andb_false_r.
  - intro u. rewrite clear_cart_eq. apply filter_filter_spared.
    intros r _ Hv. rewrite (cart_own_other s v r Hs Hv).
    now rewrite andb_false_r.
  - intros books b fresh now. destruct s as [[u|]]; cbn [auth_uid] in *;
      [|reflexivity].
    rewrite handleAddToCart_eq. destruct (single _) as [e|].
    + now apply Hupd.
    + destruct (_ && _); [|reflexivity].
      rewrite filter_app. cbn [filter CartItems.user_id].
      destruct (String.eqb_spec u v) as [->|_]; [now elim Hs | apply app_nil_r].
Qed.

Lemma cart_statements_spare_others_witness :
  auth_uid (signed_in Sample.bob_id) <> Some Sample.alice_id /\
  filter (fun r => String.eqb (CartItems.user_id r) Sample.alice_id)
         (clear_cart Sample.db (signed_in Sample.bob_id) Sample.alice_id
                     [Sample.alice_cart])
  = filter (fun r => String.eqb (CartItems.user_id r) Sample.alice_id)
           [Sample.alice_cart].
Proof.
  assert (H : auth_uid (signed_in Sample.bob_id) <> Some Sample.alice_id)
    by discriminate.
  split; [exact H|].
  exact (proj1 (proj2 (proj2
           (cart_statements_spare_others Sample.db (signed_in Sample.bob_id)
              [Sample.alice_cart] Sample.alice_id H))) Sample.alice_id).
Defined.

(** ** Quantities *)

(** Every quantity is at least 1 and fits its INTEGER column. *)
Definition quantities_ok (cart : list CartItems.row) : Prop :=
  Forall (fun r => (1 <= CartItems.quantity r <= 2147483647)%Z) cart.

Lemma int4_ok_iff n : int4_ok n = true <-> (-2147483648 <= n <= 2147483647)%Z.
Proof. unfold int4_ok. rewrite andb_true_iff, !Z.leb_le. tauto. Qed.

Lemma update_quantity_ok db s itemId q (cart : list CartItems.row) :
  (1 <= q)%Z -> quantities_ok cart ->
  quantities_ok (update_quantity db s itemId q cart).
Proof.
  intros Hq Hok. rewrite update_quantity_eq.
  destruct (int4_ok q) eqn:E; [|exact Hok].
  apply int4_ok_iff in E. unfold quantities_ok in *.
  rewrite Forall_forall in *. intros r Hr.
  apply in_map_iff in Hr. destruct Hr as (r0 & <- & Hr0).
  destruct (_ && _); [cbn; lia | now apply Hok].
Qed.

Lemma filter_ok (P : CartItems.row -> bool) (cart : list CartItems.row) :
  quantities_ok cart -> quantities_ok (filter P cart).
Proof.
  unfold quantities_ok. rewrite !Forall_forall. intros H r Hr.
  apply filter_In in Hr. now apply H.
Qed.

(** X20.  The table itself would take a quantity of zero or less: no CHECK forbids
    it.  The pages never write one.  If every quantity in the cart is at
    least 1 (and fits the column), it is still so after any call of the
    cart page, of the add-to-cart button and of the checkout's clearing. *)
Theorem cart_quantities_kept db s (cart : list CartItems.row) :
  quantities_ok cart ->
  (forall itemId q, quantities_ok (updateQuantity db s itemId q cart)) /\
  (forall itemId, quantities_ok (removeItem db s itemId cart)) /\
  (forall u, quantities_ok (clear_cart db s u cart)) /\
  (forall books user b fresh now,
      quantities_ok (handleAddToCart db books user b fresh now cart)).
Proof.
  intro Hok. split; [|split; [|split]].
  - intros itemId q. unfold updateQuantity.
    destruct (Z.ltb_spec q 1); [exact Hok | now apply update_quantity_ok].
  - intro itemId. rewrite removeItem_eq. now apply filter_ok.
  - intro u. rewrite clear_cart_eq. now apply filter_ok.
  - intros books [u|] b fresh now; [|exact Hok].
    rewrite handleAddToCart_eq.
    destruct (single _) as [e|] eqn:E.
    + apply update_quantity_ok; [|exact Hok].
      apply single_in in E.
      assert (He : In e cart).
      { eapply proj1. apply filter_In. rewrite E. now left. }
      unfold quantities_ok in Hok. rewrite Forall_forall in Hok.
      specialize (Hok e He). lia.
    + destruct (_ && _); [|exact Hok].
      unfold quantities_ok. apply Forall_app. split; [exact Hok|].
      constructor; [cbn; lia | constructor].
Qed.

Lemma cart_quantities_kept_witness :
  quantities_ok [Sample.alice_cart] /\
  quantities_ok (updateQuantity Sample.db (signed_in Sample.alice_id)
                                (CartItems.id Sample.alice_cart) 0
                                [Sample.alice_cart]).
Proof.
  assert (H : quantities_ok [Sample.alice_cart]).
  { constructor; [cbn; lia | constructor]. }
  split; [exact H|].
  exact (proj1 (cart_quantities_kept Sample.db (signed_in Sample.alice_id)
                  [Sample.alice_cart] H)
               (CartItems.id Sample.alice_cart) 0%Z).
Defined.

(** ** The constraints of the cart *)

Lemma NoDup_map_filter {A B : Type} (g : A -> B) (P : A -> bool) (l : list A) :
  NoDup (map g l) -> NoDup (map g (filter P l)).
Proof.
  induction l as [|x l IH]; cbn [map filter]; [trivial|].
  intro H. inversion H as [|? ? Hx Hnd]; subst.
  destruct (P x); [|now apply IH].
  cbn [map]. constructor; [|now apply IH].
  intro Hin. apply Hx. apply in_map_iff in Hin.
  destruct Hin as (y & Hy & Hin). apply filter_In in Hin.
  rewrite <- Hy. apply in_map. tauto.
Qed.

Lemma NoDup_map_snoc {A B : Type} (g : A -> B) (l : list A) (x : A) :
  NoDup (map g l) -> ~ In (g x) (map g l) -> NoDup (map g (l ++ [x])).
Proof.
  intros Hnd Hx. rewrite map_app. cbn [map].
  apply NoDup_app; [exact Hnd | constructor; [intros [] | constructor] |].
  intros k Hin [<-|[]]. now apply Hx.
Qed.

Lemma update_quantity_keys {B : Type} (g : CartItems.row -> B)
      db s itemId q (cart : list CartItems.row) :
  (forall r q', g (set_quantity q' r) = g r) ->
  map g (update_quantity db s itemId q cart) = map g cart.
Proof.
  intro Hg. rewrite update_quantity_eq. destruct (int4_ok q); [|reflexivity].
  rewrite map_map. apply map_ext. intro r.
  destruct (_ && _); [apply Hg | reflexivity].
Qed.

Lemma not_in_cart u b (cart : list CartItems.row) :
  in_cart u b cart = false ->
  ~ In (u, b) (map (fun r => (CartItems.user_id r, CartItems.book_id r)) cart).
Proof.
  unfold in_cart. intros H Hin. apply in_map_iff in Hin.
  destruct Hin as (r & Hr & Hin). injection Hr as Hu Hb.
  assert (existsb (fun r => String.eqb (CartItems.user_id r) u
                            && String.eqb (CartItems.book_id r) b) cart = true).
  { apply existsb_exists. exists r. split; [exact Hin|].
    now rewrite Hu, Hb, !String.eqb_refl. }
  congruence.
Qed.

Lemma not_in_ids k (cart : list CartItems.row) :
  existsb (fun r => String.eqb (CartItems.id r) k) cart = false ->
  ~ In k (map CartItems.id cart).
Proof.
  intros H Hin. apply in_map_iff in Hin. destruct Hin as (r & Hr & Hin).
  assert (existsb (fun r => String.eqb (CartItems.id r) k) cart = true).
  { apply existsb_exists. exists r. split; [exact Hin|].
    rewrite Hr. apply String.eqb_refl. }
  congruence.
Qed.

(** X21.  Every call of the pages leaves the cart within its constraints: the
    keys are still unique and no user has two rows for one book. *)
Theorem cart_constraints_kept db s (cart : list CartItems.row) :
  cart_pk cart /\ cart_unique cart ->
  (forall itemId q,
      cart_pk (updateQuantity db s itemId q cart) /\
      cart_unique (updateQuantity db s itemId q cart)) /\
  (forall itemId,
      cart_pk (removeItem db s itemId cart) /\
      cart_unique (removeItem db s itemId cart)) /\
  (forall u,
      cart_pk (clear_cart db s u cart) /\ cart_unique (clear_cart db s u cart)) /\
  (forall books user b fresh now,
      cart_pk (handleAddToCart db books user b fresh now cart) /\
      cart_unique (handleAddToCart db books user b fresh now cart)).
Proof.
  intros [Hpk Hun]. unfold cart_pk, cart_unique in *.
  split; [|split; [|split]].
  - intros itemId q. unfold updateQuantity. destruct (q <? 1)%Z; [now split|].
    rewrite !update_quantity_keys by reflexivity. now split.
  - intro itemId. rewrite removeItem_eq. split; now apply NoDup_map_filter.
  - intro u. rewrite clear_cart_eq. split; now apply NoDup_map_filter.
  - intros books [u|] b fresh now; [|now split].
    rewrite handleAddToCart_eq. destruct (single _) as [e|].
    + rewrite !update_quantity_keys by reflexivity. now split.
    + destruct (existsb (fun r => String.eqb (CartItems.id r) fresh) cart) eqn:E1;
        [now split|].
      destruct (in_cart u b cart) eqn:E2; [now split|].
      cbn [negb andb]. destruct (existsb (String.eqb b) books); [|now split].
      split; apply NoDup_map_snoc; try assumption.
      * now apply not_in_ids.
      * now apply not_in_cart.
Qed.

Lemma shop_cart_constraints : cart_pk Shop.cart /\ cart_unique Shop.cart.
Proof.
  split; unfold cart_pk, cart_unique; cbn;
    repeat constructor; cbn; intuition discriminate.
Qed.

(** On a cart of three rows, two of them Alice's: Alice adds a third book
    and the row goes in; she adds the first book again and its row is
    rewritten; she removes a row.  The constraints hold each time. *)
Lemma cart_constraints_kept_witness :
  (cart_pk Shop.cart /\ cart_unique Shop.cart) /\
  (handleAddToCart Sample.db [Shop.book1; Shop.book2; Shop.book3]
                   (Some Sample.alice_id) Shop.book3
                   "ca000000-0000-0000-0000-000000000004" 28 Shop.cart
   = [Sample.alice_cart; Shop.alice_cart2; Shop.bob_cart; Shop.alice_cart3] /\
   cart_pk [Sample.alice_cart; Shop.alice_cart2; Shop.bob_cart; Shop.alice_cart3] /\
   cart_unique [Sample.alice_cart; Shop.alice_cart2; Shop.bob_cart; Shop.alice_cart3]) /\
  (handleAddToCart Sample.db [Shop.book1; Shop.book2; Shop.book3]
                   (Some Sample.alice_id) Shop.book1
                   "ca000000-0000-0000-0000-000000000004" 28 Shop.cart
   = [set_quantity 3 Sample.alice_cart; Shop.alice_cart2; Shop.bob_cart] /\
   cart_pk [set_quantity 3 Sample.alice_cart; Shop.alice_cart2; Shop.bob_cart] /\
   cart_unique [set_quantity 3 Sample.alice_cart; Shop.alice_cart2; Shop.bob_cart]) /\
  (removeItem Sample.db (signed_in Sample.alice_id)
              (CartItems.id Shop.alice_cart2) Shop.cart
   = [Sample.alice_cart; Shop.bob_cart] /\
   cart_pk [Sample.alice_cart; Shop.bob_cart] /\
   cart_unique [Sample.alice_cart; Shop.bob_cart]).
Proof.
  pose proof (cart_constraints_kept Sample.db (signed_in Sample.alice_id) Shop.cart
                shop_cart_constraints) as (_ & Hremove & _ & Hadd).
  split; [exact shop_cart_constraints|]. split; [|split].
  - split; [reflexivity|].
    exact (Hadd [Shop.book1; Shop.book2; Shop.book3] (Some Sample.alice_id)
                Shop.book3 "ca000000-0000-0000-0000-000000000004" 28%Z).
  - split; [reflexivity|].
    exact (Hadd [Shop.book1; Shop.book2; Shop.book3] (Some Sample.alice_id)
                Shop.book1 "ca000000-0000-0000-0000-000000000004" 28%Z).
  - split; [reflexivity|].
    exact (Hremove (CartItems.id Shop.alice_cart2)).
Defined.

(** ** What the cart statements do for their caller *)

(** Under UNIQUE (user_id, book_id) a user has at most one row for a book. *)
Lemma unique_match u b (cart : list CartItems.row) :
  cart_unique cart ->
  let m := filter (fun r => String.eqb (CartItems.user_id r) u
                            && String.eqb (CartItems.book_id r) b) cart in
  m = [] \/ exists e, m = [e].
Proof.
  unfold cart_unique. induction cart as [|x l IH]; cbn [map filter]; [now left|].
  intro Hnd. inversion Hnd as [|? ? Hx Hnd']; subst.
  destruct (String.eqb (CartItems.user_id x) u
            && String.eqb (CartItems.book_id x) b) eqn:E; [|now apply IH].
  right. exists x. f_equal.
  apply filter_none. apply existsb_never. intros y Hy.
  destruct (String.eqb (CartItems.user_id y) u
            && String.eqb (CartItems.book_id y) b) eqn:Ey; [|reflexivity].
  exfalso. apply Hx.
  apply andb_true_iff in E. destruct E as [E1 E2].
  apply andb_true_iff in Ey. destruct Ey as [Ey1 Ey2].
  apply String.eqb_eq in E1, E2, Ey1, Ey2.
  apply in_map_iff. exists y. split; [|exact Hy]. congruence.
Qed.

Lemma filter_map_commute {A : Type} (P : A -> bool) (f : A -> A) (l : list A) :
  (forall x, P (f x) = P x) ->
  filter P (map f l) = map f (filter P l).
Proof.
  intro H. induction l as [|x l IH]; cbn [map filter]; [reflexivity|].
  rewrite H, IH. now destruct (P x).
Qed.

Lemma copies_update db u b itemId q (cart : list CartItems.row) (e : CartItems.row) :
  filter (fun r => String.eqb (CartItems.user_id r) u
                   && String.eqb (CartItems.book_id r) b) cart = [e] ->
  CartItems.id e = itemId ->
  int4_ok q = true ->
  copies u b (update_quantity db (signed_in u) itemId q cart) = q.
Proof.
  intros Hm Hid Hq. unfold copies. rewrite update_quantity_eq, Hq.
  rewrite filter_map_commute.
  - rewrite Hm. cbn [map].
    assert (He : In e [e]) by now left.
    rewrite <- Hm in He. apply filter_In in He. destruct He as [_ He].
    apply andb_true_iff in He. destruct He as [He _].
    rewrite cart_own_signed_in, He, Hid, String.eqb_refl. cbn. lia.
  - intro r.
    now destruct (String.eqb (CartItems.id r) itemId && cart_own (signed_in u) r).
Qed.

(** X22.  The add-to-cart button adds exactly one copy: whether the book is
    already in the user's cart or not, the user holds one more copy of it
    afterwards.  This needs the book to exist, the drawn key to be new and
    the count to stay within the INTEGER column. *)
Theorem handleAddToCart_adds_one db books u b fresh now (cart : list CartItems.row) :
  cart_unique cart ->
  In b books ->
  ~ In fresh (map CartItems.id cart) ->
  int4_ok (copies u b cart + 1) = true ->
  copies u b (handleAddToCart db books (Some u) b fresh now cart)
  = (copies u b cart + 1)%Z.
Proof.
  intros Hun Hb Hfresh Hq. rewrite handleAddToCart_eq.
  destruct (unique_match u b cart Hun) as [Hm|[e Hm]].
  - rewrite Hm. cbn [single].
    assert (E1 : existsb (fun r => String.eqb (CartItems.id r) fresh) cart = false).
    { apply existsb_never. intros r Hr.
      destruct (String.eqb_spec (CartItems.id r) fresh) as [E|_]; [|reflexivity].
      exfalso. apply Hfresh. rewrite <- E. now apply in_map. }
    assert (E2 : in_cart u b cart = false).
    { unfold in_cart. apply existsb_never. intros r Hr.
      destruct (String.eqb (CartItems.user_id r) u
                && String.eqb (CartItems.book_id r) b) eqn:Hrm; [|reflexivity].
      assert (In r []) as []. rewrite <- Hm. apply filter_In. now split. }
    assert (E3 : existsb (String.eqb b) books = true).
    { apply existsb_exists. exists b. split; [exact Hb | apply String.eqb_refl]. }
    rewrite E1, E2, E3. cbn [negb andb].
    unfold copies. rewrite filter_app, Hm.
    cbn [filter CartItems.user_id CartItems.book_id app].
    rewrite !String.eqb_refl. cbn. reflexivity.
  - rewrite Hm. cbn [single].
    assert (Hc : copies u b cart = CartItems.quantity e).
    { unfold copies. rewrite Hm. cbn. lia. }
    rewrite Hc in *.
    now apply (copies_update db u b (CartItems.id e) _ cart e).
Qed.

Lemma handleAddToCart_adds_one_witness :
  (cart_unique [Sample.alice_cart] /\
   In (CartItems.book_id Sample.alice_cart) [CartItems.book_id Sample.alice_cart] /\
   ~ In "ca000000-0000-0000-0000-000000000002" (map CartItems.id [Sample.alice_cart]) /\
   int4_ok (copies Sample.alice_id (CartItems.book_id Sample.alice_cart)
                   [Sample.alice_cart] + 1) = true) /\
  copies Sample.alice_id (CartItems.book_id Sample.alice_cart)
         (handleAddToCart Sample.db [CartItems.book_id Sample.alice_cart]
                          (Some Sample.alice_id)
                          (CartItems.book_id Sample.alice_cart)
                          "ca000000-0000-0000-0000-000000000002" 26
                          [Sample.alice_cart])
  = 3%Z.
Proof.
  assert (H1 : cart_unique [Sample.alice_cart]).
  { constructor; [intros [] | constructor]. }
  assert (H2 : In (CartItems.book_id Sample.alice_cart)
                  [CartItems.book_id Sample.alice_cart]) by now left.
  assert (H3 : ~ In "ca000000-0000-0000-0000-000000000002"
                    (map CartItems.id [Sample.alice_cart])).
  { intros [H|[]]. discriminate H. }
  assert (H4 : int4_ok (copies Sample.alice_id (CartItems.book_id Sample.alice_cart)
                               [Sample.alice_cart] + 1) = true) by reflexivity.
  split; [now repeat split|].
  exact (handleAddToCart_adds_one Sample.db [CartItems.book_id Sample.alice_cart]
           Sample.alice_id (CartItems.book_id Sample.alice_cart)
           "ca000000-0000-0000-0000-000000000002" 26%Z [Sample.alice_cart]
           H1 H2 H3 H4).
Defined.

(** X23.  The cart page sets the count: for a row of the caller's cart and a
    quantity from 1 up to the INTEGER maximum, the user holds exactly that
    many copies of the row's book afterwards. *)
Theorem updateQuantity_sets db u q (cart : list CartItems.row) (r : CartItems.row) :
  cart_unique cart ->
  In r cart ->
  CartItems.user_id r = u ->
  (1 <= q <= 2147483647)%Z ->
  copies u (CartItems.book_id r)
         (updateQuantity db (signed_in u) (CartItems.id r) q cart) = q.
Proof.
  intros Hun Hin Hu Hq. unfold updateQuantity.
  destruct (Z.ltb_spec q 1); [lia|].
  assert (Hm : filter (fun x => String.eqb (CartItems.user_id x) u
                                && String.eqb (CartItems.book_id x) (CartItems.book_id r))
                      cart = [r]).
  { assert (Hr : In r (filter (fun x => String.eqb (CartItems.user_id x) u
                                 && String.eqb (CartItems.book_id x) (CartItems.book_id r))
                              cart)).
    { apply filter_In. split; [exact Hin|]. now rewrite Hu, !String.eqb_refl. }
    destruct (unique_match u (CartItems.book_id r) cart Hun) as [Hm|[e Hm]];
      cbv zeta in Hm; rewrite Hm in Hr.
    - destruct Hr.
    - destruct Hr as [->|[]]. exact Hm. }
  apply (copies_update db u (CartItems.book_id r) (CartItems.id r) q cart r Hm eq_refl).
  apply int4_ok_iff. lia.
Qed.

Lemma updateQuantity_sets_witness :
  (cart_unique [Sample.alice_cart] /\
   In Sample.alice_cart [Sample.alice_cart] /\
   CartItems.user_id Sample.alice_cart = Sample.alice_id /\
   (1 <= 5 <= 2147483647)%Z) /\
  copies Sample.alice_id (CartItems.book_id Sample.alice_cart)
         (updateQuantity Sample.db (signed_in Sample.alice_id)
                         (CartItems.id Sample.alice_cart) 5 [Sample.alice_cart])
  = 5%Z.
Proof.
  assert (H1 : cart_unique [Sample.alice_cart]).
  { constructor; [intros [] | constructor]. }
  assert (H2 : In Sample.alice_cart [Sample.alice_cart]) by now left.
  assert (H4 : (1 <= 5 <= 2147483647)%Z) by lia.
  split; [now repeat split|].
  exact (updateQuantity_sets Sample.db Sample.alice_id 5%Z [Sample.alice_cart]
           Sample.alice_cart H1 H2 eq_refl H4).
Defined.


(** ** Blocking and unblocking *)

Lemma profile_update_by_admin reads db s (old new : Profiles.row) :
  resolves_admin db s ->
  rls ProfilesPolicies.catalog reads db s (Update old new) = Granted.
Proof.
  intro H. apply is_admin_iff in H. rls_unfold.
  unfold ProfilesPolicies.blocked_qual. autorewrite with rls.
  rewrite H. rewrite !orb_true_r. destruct reads; reflexivity.
Qed.

Lemma profile_open_stranger db s (p : Profiles.row) :
  ~ resolves_admin db s -> auth_uid s <> Some (Profiles.id p) ->
  Sql.holds (ProfilesPolicies.blocked_qual db s p) = true ->
  Profiles.is_blocked p = Some false.
Proof.
  intros Hadm Hown H. apply blocked_qual_iff in H.
  destruct H as [H|[H|H]]; [exact H | contradiction | contradiction].
Qed.

(** What a statement on [profiles] needs of the row before and of the row
    after, read off the catalog. *)
Lemma profile_update_granted_inv reads db s (old new : Profiles.row) :
  granted ProfilesPolicies.catalog reads db s (Update old new) = true ->
  Sql.holds (ProfilesPolicies.blocked_qual db s old) = true /\
  Sql.holds (ProfilesPolicies.blocked_qual db s new) = true.
Proof.
  rls_unfold. unfold ProfilesPolicies.blocked_qual. autorewrite with rls.
  repeat match goal with
         | |- context [Sql.holds ?a] => destruct (Sql.holds a)
         end;
    destruct reads; cbn; intuition congruence.
Qed.

Lemma toggle_by_admin db s userId k isBlocked :
  uuid_in userId = Some k ->
  resolves_admin db s ->
  toggleUserBlock db s userId isBlocked =
  Some (mkDb (map (fun p => if String.eqb (Profiles.id p) k
                            then set_is_blocked (Some (js_not isBlocked)) p
                            else p)
                  (profiles db))
             (orders db)).
Proof.
  intros Hk Hadm. unfold toggleUserBlock, run_update. rewrite Hk.
  rewrite existsb_never.
  - do 2 f_equal. apply map_ext. intro p. unfold granted.
    rewrite (profile_update_by_admin true db s _ _ Hadm). cbn.
    now rewrite andb_true_r.
  - intros p _. rewrite (profile_update_by_admin true db s _ _ Hadm).
    cbn. apply andb_false_r.
Qed.

(** X25.  An administrator's [toggleUserBlock] raises exactly when the key
    it is given does not read as a UUID.  Otherwise it goes through, for
    every target, blocked or not: it rewrites [is_blocked] on the rows whose
    key is that UUID, however the request spelled it, and on no other row. *)
Theorem toggleUserBlock_by_admin db s userId isBlocked :
  resolves_admin db s ->
  match uuid_in userId with
  | None => toggleUserBlock db s userId isBlocked = None
  | Some k =>
      toggleUserBlock db s userId isBlocked =
      Some (mkDb (map (fun p => if String.eqb (Profiles.id p) k
                                then set_is_blocked (Some (js_not isBlocked)) p
                                else p)
                      (profiles db))
                 (orders db))
  end.
Proof.
  intro Hadm. destruct (uuid_in userId) as [k|] eqn:Hk.
  - now apply toggle_by_admin.
  - unfold toggleUserBlock. now rewrite Hk.
Qed.

Lemma toggleUserBlock_by_admin_witness :
  resolves_admin Sample.db (signed_in Sample.root_id) /\
  toggleUserBlock Sample.db (signed_in Sample.root_id)
                  "B0000000-0000-0000-0000-00000000000B" (Some true)
  = Some (mkDb [Sample.root; Sample.alice;
                set_is_blocked (Some false) Sample.bob]
               [Sample.alice_order]) /\
  toggleUserBlock Sample.db (signed_in Sample.root_id) "not-a-uuid" (Some true)
  = None.
Proof.
  assert (H : resolves_admin Sample.db (signed_in Sample.root_id)) by reflexivity.
  split; [exact H|]. split.
  - exact (toggleUserBlock_by_admin Sample.db (signed_in Sample.root_id)
             "B0000000-0000-0000-0000-00000000000B" (Some true) H).
  - exact (toggleUserBlock_by_admin Sample.db (signed_in Sample.root_id)
             "not-a-uuid" (Some true) H).
Defined.

(** X26.  A caller who is neither an administrator nor the user that the key
    names changes nothing with [toggleUserBlock]: the request either raises
    or leaves the registry exactly as it was. *)
Theorem toggleUserBlock_by_stranger db s userId isBlocked db1 :
  ~ resolves_admin db s ->
  auth_uid s <> uuid_in userId ->
  toggleUserBlock db s userId isBlocked = Some db1 ->
  db1 = db.
Proof.
  intros Hadm Hown. unfold toggleUserBlock.
  destruct (uuid_in userId) as [k|]; [|discriminate].
  unfold run_update.
  destruct (existsb _ (profiles db)); [discriminate|].
  intro H. injection H as <-. destruct db as [ps os]. cbn [profiles orders].
  f_equal. rewrite <- (map_id ps) at 2. apply map_ext. intro p.
  destruct (String.eqb_spec (Profiles.id p) k) as [E|_]; [|reflexivity].
  cbn [andb].
  destruct (granted ProfilesPolicies.catalog true (mkDb ps os) s
              (Update p (set_is_blocked (Some (js_not isBlocked)) p))) eqn:G;
    [|reflexivity].
  apply profile_update_granted_inv in G. destruct G as [Go Gn].
  assert (Hp : auth_uid s <> Some (Profiles.id p)) by now rewrite E.
  apply (profile_open_stranger _ _ _ Hadm Hp) in Go.
  apply (profile_open_stranger _ _ _ Hadm) in Gn; [|exact Hp].
  destruct p. cbn in *. unfold set_is_blocked. cbn. congruence.
Qed.

Lemma toggleUserBlock_by_stranger_witness :
  (~ resolves_admin Sample.db (signed_in Sample.alice_id) /\
   auth_uid (signed_in Sample.alice_id) <> uuid_in Sample.bob_id /\
   toggleUserBlock Sample.db (signed_in Sample.alice_id) Sample.bob_id (Some true)
   = Some Sample.db) /\
  Sample.db = Sample.db.
Proof.
  assert (H1 : ~ resolves_admin Sample.db (signed_in Sample.alice_id))
    by discriminate.
  assert (H2 : auth_uid (signed_in Sample.alice_id) <> uuid_in Sample.bob_id)
    by discriminate.
  assert (H3 : toggleUserBlock Sample.db (signed_in Sample.alice_id)
                               Sample.bob_id (Some true) = Some Sample.db)
    by reflexivity.
  split; [now repeat split|].
  exact (toggleUserBlock_by_stranger Sample.db (signed_in Sample.alice_id)
           Sample.bob_id (Some true) Sample.db H1 H2 H3).
Defined.

(** The key is compared as a UUID, not as text: Bob, blocked, unblocks his
    own row through another spelling of his key. *)
Example toggle_own_row_other_spelling :
  toggleUserBlock Sample.db (signed_in Sample.bob_id)
                  "{B0000000-0000-0000-0000-00000000000B}" (Some true)
  = Some (mkDb [Sample.root; Sample.alice;
                set_is_blocked (Some false) Sample.bob]
               [Sample.alice_order]).
Proof. reflexivity. Qed.

(** Rewriting columns other than [id] and [role] changes no resolved role. *)
Lemma role_after_rewrite (f : Profiles.row -> Profiles.row) ps os os' s :
  (forall p, Profiles.id (f p) = Profiles.id p) ->
  (forall p, Profiles.role (f p) = Profiles.role p) ->
  get_current_user_role (mkDb (map f ps) os) s
  = get_current_user_role (mkDb ps os') s.
Proof.
  intros Hid Hrole. unfold get_current_user_role. cbn [profiles].
  induction ps as [|p ps IH]; cbn [map filter]; [reflexivity|].
  rewrite Hid.
  destruct (Sql.holds (Sql.eq (Some (Profiles.id p)) (auth_uid s))).
  - cbn [map hd_error]. now rewrite Hrole.
  - exact IH.
Qed.

(** X27.  Blocking and unblocking undo each other.  When an administrator toggles
    a user whose flag is the one the page shows, and toggles again with the
    new flag, the registry is back as it was: the second request is granted
    even when the administrator blocked its own row. *)
Theorem toggleUserBlock_twice db s userId b db1 :
  resolves_admin db s ->
  (forall p, In p (profiles db) -> uuid_in userId = Some (Profiles.id p) ->
             Profiles.is_blocked p = Some b) ->
  toggleUserBlock db s userId (Some b) = Some db1 ->
  toggleUserBlock db1 s userId (Some (negb b)) = Some db.
Proof.
  intros Hadm Hflag H1.
  destruct (uuid_in userId) as [k|] eqn:Hk;
    [|unfold toggleUserBlock in H1; rewrite Hk in H1; discriminate H1].
  rewrite (toggle_by_admin db s userId k (Some b) Hk Hadm) in H1.
  assert (Hdb1 : db1 = mkDb (map (fun p => if String.eqb (Profiles.id p) k
                                           then set_is_blocked (Some (js_not (Some b))) p
                                           else p) (profiles db)) (orders db))
    by congruence.
  clear H1. subst db1.
  assert (Hadm1 : resolves_admin
                    (mkDb (map (fun p => if String.eqb (Profiles.id p) k
                                         then set_is_blocked (Some (js_not (Some b))) p
                                         else p) (profiles db)) (orders db)) s).
  { unfold resolves_admin.
    rewrite (role_after_rewrite _ (profiles db) (orders db) (orders db) s).
    - destruct db; exact Hadm.
    - intro p. now destruct (String.eqb (Profiles.id p) k).
    - intro p. now destruct (String.eqb (Profiles.id p) k). }
  rewrite (toggle_by_admin _ s userId k (Some (negb b)) Hk Hadm1).
  cbn [profiles orders]. destruct db as [ps os]. cbn [profiles orders] in *.
  do 2 f_equal. rewrite map_map. rewrite <- (map_id ps) at 2.
  apply map_ext_in. intros p Hp.
  destruct (String.eqb_spec (Profiles.id p) k) as [E|E].
  - cbn [set_is_blocked Profiles.id]. rewrite E, String.eqb_refl.
    assert (Hb : Profiles.is_blocked p = Some b) by (apply Hflag; congruence).
    destruct p. cbn in *. subst.
    unfold set_is_blocked. cbn. now destruct b.
  - destruct (String.eqb_spec (Profiles.id p) k); [contradiction | reflexivity].
Qed.

Lemma toggleUserBlock_twice_witness :
  (resolves_admin Sample.db (signed_in Sample.root_id) /\
   (forall p, In p (profiles Sample.db) ->
              uuid_in Sample.bob_id = Some (Profiles.id p) ->
              Profiles.is_blocked p = Some true) /\
   toggleUserBlock Sample.db (signed_in Sample.root_id) Sample.bob_id (Some true)
   = Some (mkDb [Sample.root; Sample.alice; set_is_blocked (Some false) Sample.bob]
                [Sample.alice_order])) /\
  toggleUserBlock (mkDb [Sample.root; Sample.alice;
                         set_is_blocked (Some false) Sample.bob]
                        [Sample.alice_order])
                  (signed_in Sample.root_id) Sample.bob_id (Some false)
  = Some Sample.db.
Proof.
  assert (H1 : resolves_admin Sample.db (signed_in Sample.root_id)) by reflexivity.
  assert (H2 : forall p, In p (profiles Sample.db) ->
                         uuid_in Sample.bob_id = Some (Profiles.id p) ->
                         Profiles.is_blocked p = Some true).
  { intros p [<-|[<-|[<-|[]]]] E; try discriminate E. reflexivity. }
  assert (H3 : toggleUserBlock Sample.db (signed_in Sample.root_id) Sample.bob_id
                               (Some true)
               = Some (mkDb [Sample.root; Sample.alice;
                             set_is_blocked (Some false) Sample.bob]
                            [Sample.alice_order])) by reflexivity.
  split; [now repeat split|].
  exact (toggleUserBlock_twice Sample.db (signed_in Sample.root_id) Sample.bob_id
           true _ H1 H2 H3).
Defined.

(** ** Order status *)

Lemma order_update_verdict reads db s (old new : Orders.row) :
  rls OrdersPolicies.catalog reads db s (Update old new)
  = if Sql.holds (is_admin db s) then Granted else Hidden.
Proof.
  rls_unfold. destruct (Sql.holds (is_admin db s)); [|reflexivity].
  rewrite !orb_true_r. destruct reads; reflexivity.
Qed.

(** X28.  [updateOrderStatus] raises exactly when the key it is given does
    not read as a UUID.  Otherwise, sent by an administrator it sets the
    status on the rows whose key is that UUID, however the request spelled
    it, and on no other; sent by anyone else, the order's owner included, it
    answers without an error and leaves the table exactly as it was. *)
Theorem updateOrderStatus_effect db s orderId newStatus :
  match uuid_in orderId with
  | None => updateOrderStatus db s orderId newStatus = None
  | Some k =>
      (resolves_admin db s ->
       updateOrderStatus db s orderId newStatus
       = Some (mkDb (profiles db)
                    (map (fun o => if String.eqb (Orders.id o) k
                                   then set_status newStatus o else o)
                         (orders db)))) /\
      (~ resolves_admin db s ->
       updateOrderStatus db s orderId newStatus = Some db)
  end.
Proof.
  unfold updateOrderStatus. destruct (uuid_in orderId) as [k|]; [|reflexivity].
  assert (Hnever : existsb (fun r => String.eqb (Orders.id r) k
                      && verdict_eqb (rls OrdersPolicies.catalog true db s
                                          (Update r (set_status newStatus r)))
                                     Violation) (orders db) = false).
  { apply existsb_never. intros o _. rewrite order_update_verdict.
    destruct (Sql.holds (is_admin db s)); cbn; apply andb_false_r. }
  unfold run_update. rewrite Hnever. split; intro H.
  - apply is_admin_iff in H. do 2 f_equal. apply map_ext. intro o.
    unfold granted. rewrite order_update_verdict, H. cbn.
    now rewrite andb_true_r.
  - apply is_admin_false_iff in H. destruct db as [ps os]. cbn [profiles orders].
    do 2 f_equal. rewrite <- (map_id os) at 2. apply map_ext. intro o.
    unfold granted. rewrite order_update_verdict, H. cbn.
    now rewrite andb_false_r.
Qed.

(** On the sample data: the administrator delivers Alice's order through an
    upper-case spelling of its key; Alice's own request changes nothing and
    raises nothing; a key that is no UUID raises, for the administrator
    too. *)
Lemma updateOrderStatus_effect_witness :
  updateOrderStatus Sample.db (signed_in Sample.root_id)
                    "0A000000-0000-0000-0000-000000000001" delivered
  = Some (mkDb (profiles Sample.db) [set_status delivered Sample.alice_order]) /\
  updateOrderStatus Sample.db (signed_in Sample.alice_id)
                    "0A000000-0000-0000-0000-000000000001" delivered
  = Some Sample.db /\
  updateOrderStatus Sample.db (signed_in Sample.root_id) "not-a-uuid" delivered
  = None.
Proof.
  split; [|split].
  - exact (proj1 (updateOrderStatus_effect Sample.db (signed_in Sample.root_id)
                    "0A000000-0000-0000-0000-000000000001" delivered) eq_refl).
  - apply (proj2 (updateOrderStatus_effect Sample.db (signed_in Sample.alice_id)
                    "0A000000-0000-0000-0000-000000000001" delivered)).
    discriminate.
  - exact (updateOrderStatus_effect Sample.db (signed_in Sample.root_id)
             "not-a-uuid" delivered).
Defined.

(** ** Checkout *)

Lemma insert_order_ok db s (o : Orders.row) db1 :
  insert_order db s o = inr db1 ->
  granted OrdersPolicies.catalog true db s (Insert o) = true /\
  existsb (fun o' => String.eqb (Orders.id o') (Orders.id o)) (orders db) = false /\
  db1 = mkDb (profiles db) (orders db ++ [o]).
Proof.
  unfold insert_order.
  destruct (numeric_10_2_ok (Orders.total_amount o)); [|discriminate].
  destruct (granted OrdersPolicies.catalog true db s (Insert o)); [|discriminate].
  destruct (existsb _ (orders db)); [discriminate|].
  cbn. intro H. injection H as <-. now repeat split.
Qed.

(** X29.  The two requests of the checkout fit together.  Once the order row has
    gone in, its sender is its owner, the primary key of [orders] still
    holds, and every order item that refers to the new order is accepted
    from that caller -- and refused from every caller with another
    identity, administrators included.  The registry is not touched. *)
Theorem order_then_items db s (o : Orders.row) db1 :
  orders_pk db ->
  insert_order db s o = inr db1 ->
  orders_pk db1 /\
  auth_uid s = Some (Orders.user_id o) /\
  profiles db1 = profiles db /\
  (forall reads it,
      OrderItems.order_id it = Orders.id o ->
      granted OrderItemsPolicies.catalog reads db1 s (Insert it) = true) /\
  (forall reads s' it,
      OrderItems.order_id it = Orders.id o ->
      auth_uid s' <> Some (Orders.user_id o) ->
      rls OrderItemsPolicies.catalog reads db1 s' (Insert it) = Violation).
Proof.
  intros Hpk H. apply insert_order_ok in H. destruct H as (Hg & Hfresh & ->).
  assert (Hpk1 : orders_pk (mkDb (profiles db) (orders db ++ [o]))).
  { unfold orders_pk in *. cbn [orders]. apply NoDup_map_snoc; [exact Hpk|].
    intro Hin. apply in_map_iff in Hin. destruct Hin as (o' & Ho' & Hin).
    assert (existsb (fun o' => String.eqb (Orders.id o') (Orders.id o)) (orders db) = true).
    { apply existsb_exists. exists o'. split; [exact Hin|]. now apply String.eqb_eq. }
    congruence. }
  assert (Hown : auth_uid s = Some (Orders.user_id o)).
  { revert Hg. rls_unfold. holds_cases; cbn; congruence. }
  assert (Hin : In o (orders (mkDb (profiles db) (orders db ++ [o])))).
  { cbn [orders]. apply in_or_app. right. now left. }
  split; [exact Hpk1|]. split; [exact Hown|]. split; [reflexivity|]. split.
  - intros reads it Hit.
    pose proof (proj2 (own_order_exists_iff _ s it o Hpk1 Hin (eq_sym Hit)) Hown) as Hx.
    rls_unfold. rewrite Hx. destruct reads; reflexivity.
  - intros reads s' it Hit Hother.
    pose proof (own_order_exists_iff _ s' it o Hpk1 Hin (eq_sym Hit)) as Hx.
    rls_unfold.
    destruct (Sql.holds (OrderItemsPolicies.own_order_exists
                           (mkDb (profiles db) (orders db ++ [o])) s' it)).
    + exfalso. apply Hother. now apply Hx.
    + reflexivity.
Qed.

Lemma order_then_items_witness :
  (orders_pk (mkDb (profiles Sample.db) []) /\
   insert_order (mkDb (profiles Sample.db) []) (signed_in Sample.alice_id)
                Sample.alice_order = inr Sample.db) /\
  granted OrderItemsPolicies.catalog false Sample.db (signed_in Sample.alice_id)
          (Insert Sample.alice_item) = true.
Proof.
  assert (H1 : orders_pk (mkDb (profiles Sample.db) [])) by constructor.
  assert (H2 : insert_order (mkDb (profiles Sample.db) []) (signed_in Sample.alice_id)
                            Sample.alice_order = inr Sample.db) by reflexivity.
  split; [now split|].
  exact (proj1 (proj2 (proj2 (proj2
           (order_then_items (mkDb (profiles Sample.db) [])
              (signed_in Sample.alice_id) Sample.alice_order Sample.db H1 H2))))
           false Sample.alice_item eq_refl).
Defined.

(** * Who the caller is *)

(** X17.  Under the primary key of [profiles], a caller with a registry row is an
    administrator exactly when that row's [role] is 'admin': the resolver
    reads the caller's own row and no other. *)
Theorem resolves_admin_iff_role db u (p : Profiles.row) :
  profiles_pk db ->
  In p (profiles db) ->
  Profiles.id p = u ->
  (resolves_admin db (signed_in u) <-> Profiles.role p = admin).
Proof.
  intros Hpk Hin Hid. unfold resolves_admin.
  rewrite (role_of_registered db u p Hpk Hin Hid).
  destruct (Profiles.role p); cbn; split; intro H;
    try reflexivity; discriminate H.
Qed.

Lemma resolves_admin_iff_role_witness :
  (profiles_pk Sample.db /\ In Sample.alice (profiles Sample.db) /\
   Profiles.id Sample.alice = Sample.alice_id) /\
  ~ resolves_admin Sample.db (signed_in Sample.alice_id).
Proof.
  assert (H1 : profiles_pk Sample.db).
  { unfold profiles_pk. cbn. repeat constructor; cbn; intuition discriminate. }
  assert (H2 : In Sample.alice (profiles Sample.db)) by (cbn; tauto).
  split; [now repeat split|].
  intro Hadm.
  apply (resolves_admin_iff_role Sample.db Sample.alice_id Sample.alice H1 H2 eq_refl)
    in Hadm.
  discriminate Hadm.
Defined.

(** ** Anonymous callers *)

Lemma anonymous_no_row db : no_registry_row db anonymous.
Proof. intros p _. discriminate. Qed.

Lemma anonymous_not_admin db : Sql.holds (is_admin db anonymous) = false.
Proof.
  unfold is_admin. now rewrite (role_of_unregistered db anonymous (anonymous_no_row db)).
Qed.

Lemma anonymous_owns_no_order db (it : OrderItems.row) :
  Sql.holds (OrderItemsPolicies.own_order_exists db anonymous it) = false.
Proof.
  unfold OrderItemsPolicies.own_order_exists. cbn [Sql.holds].
  rewrite existsb_never; [reflexivity|].
  intros o _. rewrite holds_and. cbn. apply andb_false_r.
Qed.

(** X18.  Without signing in, a caller reads categories, books and reviews and
    does nothing else on these tables, and nothing at all on orders, order
    items and cart items: every other statement is refused. *)
Theorem anonymous_access reads db :
  (forall st, granted CategoriesPolicies.catalog reads db anonymous st
              = match st with Select _ => true | _ => false end) /\
  (forall st, granted BooksPolicies.catalog reads db anonymous st
              = match st with Select _ => true | _ => false end) /\
  (forall st, granted ReviewsPolicies.catalog reads db anonymous st
              = match st with Select _ => true | _ => false end) /\
  (forall st, granted OrdersPolicies.catalog reads db anonymous st = false) /\
  (forall st, granted OrderItemsPolicies.catalog reads db anonymous st = false) /\
  (forall st, granted CartItemsPolicies.catalog reads db anonymous st = false).
Proof.
  pose proof (anonymous_not_admin db) as Hadm.
  repeat split; intros []; reviews_unfold; rls_unfold;
    rewrite ?Hadm, ?anonymous_owns_no_order; destruct reads; reflexivity.
Qed.

(** * What creating a policy can do *)

Section Monotone.

Variable Row : Type.
Variable p : policy Row.
Variable cat : list (policy Row).

Lemma using_holds_more c db s r :
  using_holds cat c db s r = true -> using_holds (cat ++ [p]) c db s r = true.
Proof.
  unfold using_holds, policies_for. rewrite !holds_any_of.
  rewrite filter_app, flat_map_app, existsb_app.
  intro H. apply orb_true_iff. left. exact H.
Qed.

Lemma check_holds_more c db s r :
  check_holds cat c db s r = true -> check_holds (cat ++ [p]) c db s r = true.
Proof.
  unfold check_holds, policies_for. rewrite !holds_any_of.
  rewrite filter_app, flat_map_app, existsb_app.
  intro H. apply orb_true_iff. left. exact H.
Qed.

Lemma select_too_more reads db s r :
  select_too reads cat db s r = true -> select_too reads (cat ++ [p]) db s r = true.
Proof.
  unfold select_too. destruct reads; [apply using_holds_more | trivial].
Qed.

Lemma granted_more reads db s st :
  granted cat reads db s st = true -> granted (cat ++ [p]) reads db s st = true.
Proof.
  unfold granted, rls. destruct st as [r|new|old new|old].
  - destruct (using_holds cat SELECT db s r) eqn:E; [|discriminate].
    now rewrite (using_holds_more _ _ _ _ E).
  - destruct (check_holds cat INSERT db s new) eqn:E1; [|discriminate].
    destruct (select_too reads cat db s new) eqn:E2; [|discriminate].
    now rewrite (check_holds_more _ _ _ _ E1), (select_too_more _ _ _ _ E2).
  - destruct (using_holds cat UPDATE db s old) eqn:E1; [|discriminate].
    destruct (select_too reads cat db s old) eqn:E2; [|discriminate].
    cbn [andb].
    destruct (check_holds cat UPDATE db s new) eqn:E3; [|discriminate].
    destruct (select_too reads cat db s new) eqn:E4; [|discriminate].
    now rewrite (using_holds_more _ _ _ _ E1), (select_too_more _ _ _ _ E2),
      (check_holds_more _ _ _ _ E3), (select_too_more _ _ _ _ E4).
  - destruct (using_holds cat DELETE db s old) eqn:E1; [|discriminate].
    destruct (select_too reads cat db s old) eqn:E2; [|discriminate].
    now rewrite (using_holds_more _ _ _ _ E1), (select_too_more _ _ _ _ E2).
Qed.

End Monotone.

(** X9.  The migrations only ever create permissive policies, and such a policy
    takes nothing away: a statement that was granted before the guarded
    CREATE POLICY is granted after it.  So the policy "Blocked users cannot
    access data" refuses nothing that the three earlier policies of
    [profiles] let through, for a blocked caller or any other. *)
Theorem create_policy_revokes_nothing {Row : Type} (p : policy Row)
        (cat : list (policy Row)) reads db s st :
  granted cat reads db s st = true ->
  granted (create_policy_if_absent p cat) reads db s st = true.
Proof.
  intro H. unfold create_policy_if_absent.
  destruct (existsb _ cat); [exact H | now apply granted_more].
Qed.

Lemma create_policy_revokes_nothing_witness :
  granted [ProfilesPolicies.view_own; ProfilesPolicies.update_own;
           ProfilesPolicies.admins_view_all]
          true Sample.db (signed_in Sample.bob_id) (Select Sample.bob) = true /\
  granted (create_policy_if_absent ProfilesPolicies.blocked
             [ProfilesPolicies.view_own; ProfilesPolicies.update_own;
              ProfilesPolicies.admins_view_all])
          true Sample.db (signed_in Sample.bob_id) (Select Sample.bob) = true.
Proof.
  split; [reflexivity|].
  exact (create_policy_revokes_nothing ProfilesPolicies.blocked
           [ProfilesPolicies.view_own; ProfilesPolicies.update_own;
            ProfilesPolicies.admins_view_all]
           true Sample.db (signed_in Sample.bob_id) (Select Sample.bob) eq_refl).
Defined.

(** * What blocking changes *)

Lemma toggle_rewrites db s0 userId isBlocked db1 :
  toggleUserBlock db s0 userId isBlocked = Some db1 ->
  exists f, (forall p, Profiles.id (f p) = Profiles.id p) /\
            (forall p, Profiles.role (f p) = Profiles.role p) /\
            db1 = mkDb (map f (profiles db)) (orders db).
Proof.
  unfold toggleUserBlock. destruct (uuid_in userId) as [k|]; [|discriminate].
  unfold run_update.
  destruct (existsb _ (profiles db)); [discriminate|].
  intro H. injection H as <-.
  eexists. split; [|split; [|reflexivity]]; intro p; cbv beta;
    now destruct (_ && _).
Qed.

Lemma own_order_exists_same db db1 s it :
  orders db1 = orders db ->
  (forall s', is_admin db1 s' = is_admin db s') ->
  OrderItemsPolicies.own_order_exists db1 s it
  = OrderItemsPolicies.own_order_exists db s it.
Proof.
  intros Ho Ha. unfold OrderItemsPolicies.own_order_exists,
    OrderItemsPolicies.orders_seen. rewrite Ho. do 2 f_equal.
  apply filter_ext. intro o. rls_unfold. now rewrite Ha.
Qed.

(** X30.  The flag [is_blocked] of the caller is read by no policy.  After a
    [toggleUserBlock] that went through, whoever sent it and whoever it
    names, every caller gets the same verdict as before for the same rows,
    on every statement of every table, the user just blocked included: a
    blocked user reads, orders, reviews and fills the cart as before. *)
Theorem blocking_changes_no_verdict db s0 userId isBlocked db1 :
  toggleUserBlock db s0 userId isBlocked = Some db1 ->
  forall reads s,
    (forall st, rls ProfilesPolicies.catalog reads db1 s st
                = rls ProfilesPolicies.catalog reads db s st) /\
    (forall st, rls CategoriesPolicies.catalog reads db1 s st
                = rls CategoriesPolicies.catalog reads db s st) /\
    (forall st, rls BooksPolicies.catalog reads db1 s st
                = rls BooksPolicies.catalog reads db s st) /\
    (forall st, rls CartItemsPolicies.catalog reads db1 s st
                = rls CartItemsPolicies.catalog reads db s st) /\
    (forall st, rls OrdersPolicies.catalog reads db1 s st
                = rls OrdersPolicies.catalog reads db s st) /\
    (forall st, rls OrderItemsPolicies.catalog reads db1 s st
                = rls OrderItemsPolicies.catalog reads db s st) /\
    (forall st, rls ReviewsPolicies.catalog reads db1 s st
                = rls ReviewsPolicies.catalog reads db s st).
Proof.
  intro H. apply toggle_rewrites in H. destruct H as (f & Hid & Hrole & ->).
  assert (Ha : forall s', is_admin (mkDb (map f (profiles db)) (orders db)) s'
                          = is_admin db s').
  { intro s'. unfold is_admin.
    rewrite (role_after_rewrite f (profiles db) (orders db) (orders db) s' Hid Hrole).
    now destruct db. }
  assert (Ho : forall s' it,
             OrderItemsPolicies.own_order_exists
               (mkDb (map f (profiles db)) (orders db)) s' it
             = OrderItemsPolicies.own_order_exists db s' it).
  { intros s' it. now apply own_order_exists_same. }
  intros reads s.
  repeat split; intros []; reviews_unfold; rls_unfold;
    unfold ProfilesPolicies.blocked_qual; rewrite ?Ha, ?Ho; reflexivity.
Qed.

Lemma blocking_changes_no_verdict_witness :
  toggleUserBlock Sample.db (signed_in Sample.root_id) Sample.alice_id (Some false)
  = Some (mkDb [Sample.root; set_is_blocked (Some true) Sample.alice; Sample.bob]
               [Sample.alice_order]) /\
  rls OrdersPolicies.catalog true
      (mkDb [Sample.root; set_is_blocked (Some true) Sample.alice; Sample.bob]
            [Sample.alice_order])
      (signed_in Sample.alice_id) (Select Sample.alice_order)
  = rls OrdersPolicies.catalog true Sample.db
        (signed_in Sample.alice_id) (Select Sample.alice_order).
Proof.
  split; [reflexivity|].
  exact (proj1 (proj2 (proj2 (proj2 (proj2
           (blocking_changes_no_verdict Sample.db (signed_in Sample.root_id)
              Sample.alice_id (Some false) _ eq_refl true
              (signed_in Sample.alice_id))))))
           (Select Sample.alice_order)).
Defined.
